(** * PlateChecker: the request pipeline of [src/server.js]

    A shallow embedding of the four pieces of logic of the server (plate
    normalisation, the fixed-window rate limiter, the TTL cache and the
    interpreter of DMV responses) and of the route handler that sequences
    them, followed by the properties proved about them.

    Conventions of the embedding.
    - A JavaScript string is a [string] of 8-bit characters, and the
      embedding is that of ASCII text: [trim], [toUpperCase] and
      [toLowerCase] below are those of JavaScript on text whose characters
      are all below 128 ([isAscii]), and only there.  A property that
      computes with them on text its hypotheses do not confine otherwise is
      stated for ASCII text.
    - [Date.now()] is an argument of every function that reads the clock, in
      milliseconds, as an integer.
    - The two [Map]s of the module are finite maps keyed by strings.
    - A [throw] is the [Throw] case of a completion. *)

From Stdlib Require Import ZArith Lia Ascii String List Bool.
From stdpp Require Import base gmap strings pretty list fin_maps.

Local Open Scope Z_scope.

(** ** Strings *)

Module JsString.

Definition empty : string := EmptyString.

(** The double-quote character alone, for messages that quote text. *)
Definition dquote : string := String (ascii_of_nat 34) EmptyString.

Definition isLower (c : ascii) : bool :=
  (97 <=? nat_of_ascii c)%nat && (nat_of_ascii c <=? 122)%nat.

Definition isUpper (c : ascii) : bool :=
  (65 <=? nat_of_ascii c)%nat && (nat_of_ascii c <=? 90)%nat.

Definition isDigit (c : ascii) : bool :=
  (48 <=? nat_of_ascii c)%nat && (nat_of_ascii c <=? 57)%nat.

Definition toUpperChar (c : ascii) : ascii :=
  if isLower c then ascii_of_nat (nat_of_ascii c - 32) else c.

Definition toLowerChar (c : ascii) : ascii :=
  if isUpper c then ascii_of_nat (nat_of_ascii c + 32) else c.

(** White space of [String.prototype.trim] within ASCII: TAB, LF, VT, FF,
    CR and SPACE.  (Outside ASCII, [trim] also strips U+00A0, U+FEFF and the
    other Unicode spaces.) *)
Definition isWhiteSpace (c : ascii) : bool :=
  match nat_of_ascii c with
  | 9%nat | 10%nat | 11%nat | 12%nat | 13%nat | 32%nat => true
  | _ => false
  end.

Fixpoint map (f : ascii -> ascii) (s : string) : string :=
  match s with
  | EmptyString => EmptyString
  | String c rest => String (f c) (map f rest)
  end.

Fixpoint all (p : ascii -> bool) (s : string) : bool :=
  match s with
  | EmptyString => true
  | String c rest => p c && all p rest
  end.

Definition isEmpty (s : string) : bool :=
  match s with EmptyString => true | String _ _ => false end.

(** [s.length] *)
Definition length (s : string) : Z := Z.of_nat (String.length s).

(** [s.toUpperCase()], [s.toLowerCase()] on ASCII text.  (Outside ASCII the
    case mappings of JavaScript also reach ASCII letters, and can change the
    length.) *)
Definition toUpperCase : string -> string := map toUpperChar.
Definition toLowerCase : string -> string := map toLowerChar.

Fixpoint trimStart (s : string) : string :=
  match s with
  | EmptyString => EmptyString
  | String c rest => if isWhiteSpace c then trimStart rest else s
  end.

Fixpoint trimEnd (s : string) : string :=
  match s with
  | EmptyString => EmptyString
  | String c rest =>
      let kept := trimEnd rest in
      if isWhiteSpace c && isEmpty kept then EmptyString else String c kept
  end.

(** [s.trim()] on ASCII text. *)
Definition trim (s : string) : string := trimEnd (trimStart s).

(** [s.startsWith(p)] *)
Definition startsWith (s p : string) : bool := String.prefix p s.

(** [s.includes(needle)]: [needle] occurs at some position of [s]. *)
Fixpoint includes (s needle : string) : bool :=
  String.prefix needle s ||
  match s with
  | EmptyString => false
  | String _ rest => includes rest needle
  end.

(** [s.split(',')[0]]: the text before the first comma. *)
Fixpoint beforeComma (s : string) : string :=
  match s with
  | EmptyString => EmptyString
  | String c rest =>
      if Ascii.eqb c ","%char then EmptyString else String c (beforeComma rest)
  end.

(** [s === t] on strings. *)
Definition eqb (s t : string) : bool := String.eqb s t.

End JsString.

(** ** Completions and errors *)

Inductive JsError : Type :=
| ValidationError (message : string)
| TypeError (message : string)
| FetchError (message : string).

Definition errorMessage (e : JsError) : string :=
  match e with
  | ValidationError m | TypeError m | FetchError m => m
  end.

Definition isValidationError (e : JsError) : bool :=
  match e with ValidationError _ => true | _ => false end.

Inductive Completion (A : Type) : Type :=
| Normal (a : A)
| Throw (e : JsError).
Arguments Normal {A} a.
Arguments Throw {A} e.

Definition bind {A B : Type} (c : Completion A) (k : A -> Completion B)
  : Completion B :=
  match c with
  | Normal a => k a
  | Throw e => Throw e
  end.

Notation "'let*' x ':=' c 'in' k" := (bind c (fun x => k))
  (at level 10, x name, c at level 100, k at level 200).

(** ** JavaScript values *)

(** What the code observes of a number: its truthiness and its rendering by
    [String(n)]. *)
Class JsNumber (number : Type) : Type := {
  numberToBoolean : number -> bool;
  numberToString : number -> string
}.

(** The values [JSON.parse] produces, and [undefined]. *)
#[local] Set Warnings "-register-all".
Inductive JsVal (number : Type) : Type :=
| JUndefined
| JNull
| JBool (b : bool)
| JNum (n : number)
| JStr (s : string)
| JArr (items : list (JsVal number))
| JObj (props : list (string * JsVal number)).
Arguments JUndefined {number}.
Arguments JNull {number}.
Arguments JBool {number} b.
Arguments JNum {number} n.
Arguments JStr {number} s.
Arguments JArr {number} items.
Arguments JObj {number} props.

Section Program.
Context {number : Type} `{JsNumber number}.

#[local] Abbreviation Val := (JsVal number).

(** [ToBoolean]: what [!v], [v || w] and [if (v)] test. *)
Definition ToBoolean (v : Val) : bool :=
  match v with
  | JUndefined | JNull => false
  | JBool b => b
  | JNum n => numberToBoolean n
  | JStr s => negb (JsString.isEmpty s)
  | JArr _ | JObj _ => true
  end.

(** [v || w] *)
Definition or (v w : Val) : Val := if ToBoolean v then v else w.

(** The own property [name] of an object literal, first binding first. *)
Fixpoint ownProperty (props : list (string * Val)) (name : string)
  : option Val :=
  match props with
  | [] => None
  | (k, v) :: rest => if String.eqb k name then Some v else ownProperty rest name
  end.

(** [v.name] for the property names the server reads ([plate], [code],
    [status], [result], [message], [errorMessage], [statusMessage],
    [success], [available], [isValid]): none of them is defined by a built-in
    prototype, so the access yields the own property of an object and
    [undefined] on every other value.  The code never reaches a property
    access on [null] or [undefined]. *)
Definition get (v : Val) (name : string) : Val :=
  match v with
  | JObj props => default JUndefined (ownProperty props name)
  | _ => JUndefined
  end.

(** [v === true], [v === false] *)
Definition isTrue (v : Val) : bool :=
  match v with JBool true => true | _ => false end.
Definition isFalse (v : Val) : bool :=
  match v with JBool false => true | _ => false end.

Definition cannotConvert : JsError :=
  TypeError "Cannot convert object to primitive value".

(** [String(v)].  An array is joined with commas, [null] and [undefined]
    elements as the empty string.  An object parsed from JSON has no callable
    property of its own: with an own [toString] the conversion finds neither
    a callable [toString] nor a [valueOf] that returns a primitive and
    throws a TypeError; without one it is rendered by
    [Object.prototype.toString]. *)
Fixpoint ToString (v : Val) : Completion string :=
  match v with
  | JUndefined => Normal "undefined"
  | JNull => Normal "null"
  | JBool true => Normal "true"
  | JBool false => Normal "false"
  | JNum n => Normal (numberToString n)
  | JStr s => Normal s
  | JArr items =>
      let element (x : Val) : Completion string :=
        match x with
        | JUndefined | JNull => Normal JsString.empty
        | _ => ToString x
        end in
      (fix join (xs : list Val) : Completion string :=
         match xs with
         | [] => Normal JsString.empty
         | [x] => element x
         | x :: rest =>
             let* first := element x in
             let* others := join rest in
             Normal (first +:+ "," +:+ others)
         end) items
  | JObj props =>
      match ownProperty props "toString" with
      | Some _ => Throw cannotConvert
      | None => Normal "[object Object]"
      end
  end.

(** ** Constants of the module *)

Definition CACHE_TTL_MS : Z := 5 * 60 * 1000.
Definition RATE_LIMIT_WINDOW_MS : Z := 60 * 1000.
Definition RATE_LIMIT_MAX_REQUESTS : Z := 20.

(** ** The rate limiter *)

Record Bucket : Type := { count : Z; windowStart : Z }.

(** [isRateLimited(ip)] at [Date.now() = now]: the updated [requestBuckets]
    and the returned boolean ([true]: the request is refused). *)
Definition isRateLimited (requestBuckets : gmap string Bucket) (ip : string)
  (now : Z) : gmap string Bucket * bool :=
  let opened := <[ip := {| count := 1; windowStart := now |}]> requestBuckets in
  match requestBuckets !! ip with
  | None => (opened, false)
  | Some bucket =>
      if RATE_LIMIT_WINDOW_MS <=? now - windowStart bucket then (opened, false)
      else if RATE_LIMIT_MAX_REQUESTS <=? count bucket then (requestBuckets, true)
      else
        (<[ip := {| count := count bucket + 1;
                    windowStart := windowStart bucket |}]> requestBuckets,
         false)
  end.

(** ** Plate normalisation *)

(** One character of the class [[A-Z0-9/ ]]. *)
Definition plateChar (c : ascii) : bool :=
  JsString.isUpper c || JsString.isDigit c
  || Ascii.eqb c "/"%char || Ascii.eqb c " "%char.

(** [/^[A-Z0-9/ ]+$/.test(s)] *)
Definition plateRegexTest (s : string) : bool :=
  negb (JsString.isEmpty s) && JsString.all plateChar s.

Definition onlyAllowedMessage : string :=
  "Only letters A-Z, digits 0-9, spaces, and " +:+ JsString.dquote +:+ "/"
  +:+ JsString.dquote +:+ " are allowed.".

Definition normalizePlate (input : Val) : Completion string :=
  match input with
  | JStr text =>
      let normalized := JsString.toUpperCase (JsString.trim text) in
      if JsString.length normalized =? 0 then
        Throw (ValidationError "Plate cannot be empty.")
      else if (JsString.length normalized <? 2)
              || (7 <? JsString.length normalized) then
        Throw (ValidationError "Plates must be between 2 and 7 characters.")
      else if negb (plateRegexTest normalized) then
        Throw (ValidationError onlyAllowedMessage)
      else Normal normalized
  | _ => Throw (ValidationError "Plate must be text.")
  end.

(** ** Interpreted results *)

Inductive Status : Type := available | taken | invalid | unavailable.

Record Result : Type := { status : Status; message : Val }.

(** What [interpretDmvResponse] can return: an object [{status, message}],
    or the value that a property read on the literal [messageMap] inherits
    from [Object.prototype] (the function [Object] for [constructor], the
    prototype itself for [__proto__], a built-in method for the other names).
    An inherited value has no [status] and no [message] property and no
    enumerable own property. *)
Inductive Returned : Type :=
| PlainResult (r : Result)
| Inherited (name : string).

(** [r.status], [None] for [undefined]. *)
Definition statusOf (r : Returned) : option Status :=
  match r with
  | PlainResult res => Some (status res)
  | Inherited _ => None
  end.

(** [r.message] *)
Definition messageOf (r : Returned) : Val :=
  match r with
  | PlainResult res => message res
  | Inherited _ => JUndefined
  end.

(** ** The cache *)

Record CacheEntry : Type := { result : Returned; expiresAt : Z }.

(** [getCachedResult(plate)] at [Date.now() = now]: the updated [plateCache]
    and the returned value, [None] for [null]. *)
Definition getCachedResult (plateCache : gmap string CacheEntry)
  (plate : string) (now : Z) : gmap string CacheEntry * option Returned :=
  match plateCache !! plate with
  | None => (plateCache, None)
  | Some entry =>
      if expiresAt entry <? now then (delete plate plateCache, None)
      else (plateCache, Some (result entry))
  end.

Definition setCachedResult (plateCache : gmap string CacheEntry)
  (plate : string) (res : Returned) (now : Z) : gmap string CacheEntry :=
  <[plate := {| result := res; expiresAt := now + CACHE_TTL_MS |}]> plateCache.

(** ** The response interpreter *)

Definition availableResult : Result :=
  {| status := available; message := JStr "That plate is available." |}.
Definition takenResult : Result :=
  {| status := taken; message := JStr "That plate appears to be taken." |}.
Definition invalidResult : Result :=
  {| status := invalid; message := JStr "That plate is invalid." |}.
Definition globalResult : Result :=
  {| status := unavailable;
     message := JStr "DMV returned a temporary error. Please try again." |}.
Definition serviceDownResult : Result :=
  {| status := unavailable;
     message :=
       JStr "DMV service is temporarily unavailable. Please try again shortly." |}.
Definition unexpectedResult : Result :=
  {| status := unavailable;
     message := JStr "Unexpected response from DMV service." |}.
Definition uninterpretedResult : Result :=
  {| status := unavailable;
     message := JStr "Could not interpret DMV response. Please try again." |}.

(** The five properties the literal [messageMap] defines. *)
Definition messageMapOwn (key : string) : option Result :=
  if String.eqb key "message.available" then Some availableResult
  else if String.eqb key "message.notavailable" then Some takenResult
  else if String.eqb key "message.taken" then Some takenResult
  else if String.eqb key "message.invalid" then Some invalidResult
  else if String.eqb key "message.global" then Some globalResult
  else None.

(** The property names of [Object.prototype], which every object literal
    inherits. *)
Definition objectPrototypeNames : list string :=
  [ "constructor"; "__defineGetter__"; "__defineSetter__"; "hasOwnProperty";
    "__lookupGetter__"; "__lookupSetter__"; "isPrototypeOf";
    "propertyIsEnumerable"; "toString"; "valueOf"; "__proto__";
    "toLocaleString" ].

(** [messageMap[key]], [None] for [undefined]: an own property first, then
    the prototype.  Every value found is an object or a function, hence
    truthy. *)
Definition messageMap (key : string) : option Returned :=
  match messageMapOwn key with
  | Some r => Some (PlainResult r)
  | None =>
      if existsb (String.eqb key) objectPrototypeNames
      then Some (Inherited key) else None
  end.

(** [payload.code || payload.status || payload.result || ''] *)
Definition codeField (payload : Val) : Val :=
  or (or (or (get payload "code") (get payload "status")) (get payload "result"))
     (JStr JsString.empty).

(** [payload.message || payload.errorMessage || payload.statusMessage] *)
Definition messageField (payload : Val) : Val :=
  or (or (get payload "message") (get payload "errorMessage"))
     (get payload "statusMessage").

(** [typeof message === 'string' ? message.trim().toLowerCase() : ''] *)
Definition normalizeMessage (msg : Val) : string :=
  match msg with
  | JStr m => JsString.toLowerCase (JsString.trim m)
  | _ => JsString.empty
  end.

(** The conditions of lines 162, 166, 170 and 178. *)
Definition successAvailable (payload : Val) (code : string) : bool :=
  isTrue (get payload "success") && String.eqb code "AVAILABLE".

Definition signalsAvailable (payload : Val) (code : string) : bool :=
  isTrue (get payload "available") || String.eqb code "AVAILABLE"
  || String.eqb code "SUCCESS".

Definition signalsInvalid (payload : Val) (code : string) : bool :=
  String.eqb code "VALIDATION" || String.eqb code "INVALID"
  || isFalse (get payload "isValid").

Definition signalsTaken (payload : Val) (code : string) : bool :=
  String.eqb code "TAKEN" || String.eqb code "UNAVAILABLE"
  || String.eqb code "NOT_AVAILABLE" || isFalse (get payload "available").

(** The cascade of lines 158 to 191, once [code], [message] and
    [normalizedMessage] are computed. *)
Definition interpretObject (payload : Val) (code : string) (msg : Val)
  (normalizedMessage : string) : Returned :=
  match messageMap normalizedMessage with
  | Some mapped => mapped
  | None =>
      if successAvailable payload code then PlainResult availableResult
      else if signalsAvailable payload code then
        PlainResult
          {| status := available;
             message := or msg (JStr "That plate is available.") |}
      else if signalsInvalid payload code then
        PlainResult
          {| status := invalid;
             message := or msg (JStr "That plate is invalid.") |}
      else if signalsTaken payload code then
        PlainResult
          {| status := taken;
             message := or msg (JStr "That plate appears to be taken.") |}
      else
        match msg with
        | JStr m =>
            if (0 <? JsString.length m)
               && negb (JsString.startsWith normalizedMessage "message.")
            then PlainResult {| status := taken; message := msg |}
            else PlainResult uninterpretedResult
        | _ => PlainResult uninterpretedResult
        end
  end.

Definition interpretDmvResponse (payload : Val) (httpStatus : Z)
  : Completion Returned :=
  if 500 <=? httpStatus then Normal (PlainResult serviceDownResult)
  else
    match payload with
    | JNull | JUndefined => Normal (PlainResult unexpectedResult)
    | JStr s =>
        let text := JsString.toLowerCase s in
        if JsString.includes text "can be requested"
           || JsString.includes text "available" then
          Normal (PlainResult availableResult)
        else if JsString.includes text "not available"
                || JsString.includes text "already in use"
                || JsString.includes text "unavailable" then
          Normal (PlainResult takenResult)
        else Normal (PlainResult uninterpretedResult)
    | _ =>
        let* rendered := ToString (codeField payload) in
        let code := JsString.toUpperCase rendered in
        let msg := messageField payload in
        let normalizedMessage := normalizeMessage msg in
        Normal (interpretObject payload code msg normalizedMessage)
    end.

(** ** The route handler *)

(** What the handler reads of a request: the [x-forwarded-for] header when it
    is a string, [request.ip] when it is defined, and the parsed body. *)
Record Request : Type := {
  forwardedFor : option string;
  ip : option string;
  body : Val
}.

Definition getClientIp (request : Request) : string :=
  let direct :=
    match ip request with
    | Some address => if JsString.isEmpty address then "unknown" else address
    | None => "unknown"
    end in
  match forwardedFor request with
  | Some forwarded =>
      if 0 <? JsString.length forwarded
      then JsString.trim (JsString.beforeComma forwarded)
      else direct
  | None => direct
  end.

Inductive ReplyBody : Type :=
| ErrorBody (error : Val) (details : option string)
| ResultBody (spread : Returned) (cached : bool).

Record Reply : Type := { statusCode : Z; sent : ReplyBody }.

Record Server : Type := {
  requestBuckets : gmap string Bucket;
  plateCache : gmap string CacheEntry
}.

Definition initialServer : Server :=
  {| requestBuckets := ∅; plateCache := ∅ |}.

Definition tooManyRequests : Reply :=
  {| statusCode := 429;
     sent := ErrorBody
       (JStr "Too many requests. Please wait a minute and try again.") None |}.

Definition missingPlate : Reply :=
  {| statusCode := 400; sent := ErrorBody (JStr "Missing plate value.") None |}.

(** The [catch] clause of the handler. *)
Definition onError (err : JsError) : Reply :=
  if isValidationError err then
    {| statusCode := 400; sent := ErrorBody (JStr (errorMessage err)) None |}
  else
    {| statusCode := 502;
       sent := ErrorBody (JStr "Unable to reach DMV endpoint.")
                 (Some (errorMessage err)) |}.

(** Lines 219 to 234, the part of the handler that runs before its first
    [await]: the server afterwards, and either the reply sent or the plate
    key with which the upstream is called.  [tRate] and [tLookup] are the
    clock readings of [isRateLimited] and of [getCachedResult]. *)
Definition checkPlateBegin (srv : Server) (request : Request)
  (tRate tLookup : Z) : Server * Completion (Reply + string) :=
  let clientIp := getClientIp request in
  let (buckets, limited) := isRateLimited (requestBuckets srv) clientIp tRate in
  let counted := {| requestBuckets := buckets; plateCache := plateCache srv |} in
  if limited then (counted, Normal (inl tooManyRequests))
  else
    let plate := get (or (body request) (JObj [])) "plate" in
    match plate with
    | JUndefined | JNull => (counted, Normal (inl missingPlate))
    | _ =>
        match normalizePlate plate with
        | Throw err => (counted, Throw err)
        | Normal normalized =>
            let (cache, cached) :=
              getCachedResult (plateCache counted) normalized tLookup in
            let looked := {| requestBuckets := buckets; plateCache := cache |} in
            match cached with
            | Some hit =>
                (looked,
                 Normal (inl {| statusCode := 200; sent := ResultBody hit true |}))
            | None => (looked, Normal (inr normalized))
            end
        end
    end.

(** Lines 267 to 283, the part that runs once the upstream has answered with
    [payload] and [httpStatus]; [tStore] is the clock reading of
    [setCachedResult]. *)
Definition checkPlateEnd (srv : Server) (normalized : string) (payload : Val)
  (httpStatus : Z) (tStore : Z) : Server * Completion Reply :=
  match interpretDmvResponse payload httpStatus with
  | Throw err => (srv, Throw err)
  | Normal interpreted =>
      match statusOf interpreted with
      | Some unavailable =>
          (srv,
           Normal {| statusCode := 502;
                     sent := ErrorBody (messageOf interpreted) None |})
      | _ =>
          ({| requestBuckets := requestBuckets srv;
              plateCache :=
                setCachedResult (plateCache srv) normalized interpreted tStore |},
           Normal {| statusCode := 200; sent := ResultBody interpreted false |})
      end
  end.

(** The clock readings of one request. *)
Record Clock : Type := { tRate : Z; tLookup : Z; tStore : Z }.

(** One request handled from start to end with no other request in between.
    [upstream] is the outcome of lines 236 to 265 (the two fetches and the
    parsing of the body): a thrown error, or the payload and the HTTP
    status. *)
Definition checkPlate (srv : Server) (request : Request) (clock : Clock)
  (upstream : Completion (Val * Z)) : Server * Reply :=
  match checkPlateBegin srv request (tRate clock) (tLookup clock) with
  | (srv1, Throw err) => (srv1, onError err)
  | (srv1, Normal (inl reply)) => (srv1, reply)
  | (srv1, Normal (inr normalized)) =>
      match upstream with
      | Throw err => (srv1, onError err)
      | Normal (payload, httpStatus) =>
          match checkPlateEnd srv1 normalized payload httpStatus (tStore clock) with
          | (srv2, Throw err) => (srv2, onError err)
          | (srv2, Normal reply) => (srv2, reply)
          end
      end
  end.

(** The handler yields at its [await]s, so requests interleave: a step of the
    server is the first part of some request or the last part of a request
    whose upstream call has returned. *)
Inductive step : Server -> Server -> Prop :=
| step_begin (srv : Server) (request : Request) (tRate tLookup : Z) :
    step srv (fst (checkPlateBegin srv request tRate tLookup))
| step_end (srv : Server) (normalized : string) (payload : Val)
    (httpStatus tStore : Z) :
    step srv (fst (checkPlateEnd srv normalized payload httpStatus tStore)).

Inductive reachable : Server -> Prop :=
| reachable_initial : reachable initialServer
| reachable_step (srv srv' : Server) :
    reachable srv -> step srv srv' -> reachable srv'.

End Program.

(** Integer-valued numbers below 10^21 in magnitude, which [String] renders
    in plain decimal. *)
#[export] Instance IntegerNumber : JsNumber Z := {|
  numberToBoolean n := negb (n =? 0);
  numberToString n := pretty n
|}.

(** ** The upstream call *)

Section Upstream.
Context {number : Type} `{JsNumber number}.

(** [s.split(';')[0]]: the text before the first semicolon. *)
Fixpoint beforeSemicolon (s : string) : string :=
  match s with
  | EmptyString => EmptyString
  | String c rest =>
      if Ascii.eqb c ";"%char then EmptyString
      else String c (beforeSemicolon rest)
  end.

(** [parts.join('; ')] *)
Fixpoint joinCookies (parts : list string) : string :=
  match parts with
  | [] => EmptyString
  | [part] => part
  | part :: rest => part +:+ "; " +:+ joinCookies rest
  end.

(** [cookies.map((cookie) => String(cookie).split(';')[0])] *)
Fixpoint cookiePairs (cookies : list (JsVal number)) : Completion (list string) :=
  match cookies with
  | [] => Normal []
  | cookie :: rest =>
      let* text := ToString cookie in
      let* others := cookiePairs rest in
      Normal (beforeSemicolon text :: others)
  end.

Definition extractCookieHeader (setCookieHeaders : JsVal number)
  : Completion string :=
  match setCookieHeaders with
  | JArr [] => Normal EmptyString
  | JArr cookies =>
      let* pairs := cookiePairs cookies in
      Normal (joinCookies
                (List.filter (fun pair => negb (JsString.isEmpty pair)) pairs))
  | _ => Normal EmptyString
  end.

End Upstream.

(** [plate[i] || '']: the character at index [i] as a string, the empty
    string past the end. *)
Definition charOrEmpty (plate : string) (i : nat) : string :=
  match String.get i plate with
  | Some c => String c EmptyString
  | None => EmptyString
  end.

(** The entries [buildPlateForm(plate)] puts in its [URLSearchParams], in
    order: the eleven fixed fields, then [plateChar0] to [plateChar13]. *)
Definition buildPlateForm (plate : string) : list (string * string) :=
  [ ("plateType", "Z");
    ("kidsPlate", EmptyString);
    ("plateNameLow", "california 1960s legacy");
    ("plateName", "California 1960s Legacy");
    ("plateLength", pretty (String.length plate));
    ("vetDecalCd", EmptyString);
    ("centeredPlateLength", "0");
    ("platechecked", "no");
    ("imageSelected", "none");
    ("vehicleType", "AUTO");
    ("vetDecalDesc", EmptyString) ]
  ++ List.map (fun i => ("plateChar" +:+ pretty i, charOrEmpty plate i))
       (seq 0 14).

(** The values of the fourteen [plateChar] fields of a form, joined. *)
Definition plateCharsOf (form : list (string * string)) : string :=
  fold_right String.append EmptyString (List.map snd (drop 11 form)).

(** ** Interleaved requests with their plate keys *)

(** As [reachable], with the last part of a request run on a key that
    [normalizePlate] returned, as it is in the handler. *)
Inductive interleaved {number : Type} `{JsNumber number}
  : @Server number -> Prop :=
| interleaved_initial : interleaved initialServer
| interleaved_begin (srv : Server) (request : Request) (tRate tLookup : Z) :
    interleaved srv ->
    interleaved (fst (checkPlateBegin srv request tRate tLookup))
| interleaved_end (srv : Server) (plate : JsVal number) (normalized : string)
    (payload : JsVal number) (httpStatus tStore : Z) :
    interleaved srv ->
    normalizePlate plate = Normal normalized ->
    interleaved (fst (checkPlateEnd srv normalized payload httpStatus tStore)).

(** Every bucket counts between 1 and the maximum. *)
Definition countsInRange (buckets : gmap string Bucket) : Prop :=
  forall (ip : string) (bucket : Bucket),
    buckets !! ip = Some bucket ->
    1 <= count bucket <= RATE_LIMIT_MAX_REQUESTS.

(** The texts the interpreter writes itself. *)
Definition fixedMessages : list string :=
  [ "That plate is available.";
    "That plate appears to be taken.";
    "That plate is invalid.";
    "DMV returned a temporary error. Please try again.";
    "DMV service is temporarily unavailable. Please try again shortly.";
    "Unexpected response from DMV service.";
    "Could not interpret DMV response. Please try again." ].

(** ** Runs used to state the properties *)

(** One client calling [isRateLimited] at each of [times] in turn: the
    buckets at the end and the answers in order. *)
Fixpoint isRateLimitedEach (requestBuckets : gmap string Bucket) (ip : string)
  (times : list Z) : gmap string Bucket * list bool :=
  match times with
  | [] => (requestBuckets, [])
  | now :: rest =>
      let (counted, limited) := isRateLimited requestBuckets ip now in
      let (final, answers) := isRateLimitedEach counted ip rest in
      (final, limited :: answers)
  end.

(** A call at [now] opens a window for [ip]: no bucket yet, or one whose
    window has elapsed. *)
Definition opensWindow (requestBuckets : gmap string Bucket) (ip : string)
  (now : Z) : Prop :=
  match requestBuckets !! ip with
  | None => True
  | Some bucket => RATE_LIMIT_WINDOW_MS <= now - windowStart bucket
  end.

(** The cache holds no entry whose result has the status [unavailable]. *)
Definition noUnavailableCached {number : Type}
  (cache : gmap string (@CacheEntry number)) : Prop :=
  forall (plate : string) (entry : CacheEntry),
    cache !! plate = Some entry -> statusOf (result entry) <> Some unavailable.

(** ** Requests used as examples *)

(** A client whose bucket is full in the window opened at time 0. *)
Definition exhaustedServer : @Server Z :=
  {| requestBuckets := {[ "198.51.100.4" := {| count := 20; windowStart := 0 |} ]};
     plateCache := ∅ |}.

Definition requestFrom (address : string) (plate : string) : @Request Z :=
  {| forwardedFor := None;
     ip := Some address;
     body := JObj [("plate", JStr plate)] |}.

Definition noon : Clock := {| tRate := 1000; tLookup := 1000; tStore := 1200 |}.

(** ** Predicates used to state the properties *)

(** ASCII text: every character is below 128.  On such text the string
    functions of the embedding are those of JavaScript. *)
Definition isAscii (s : string) : bool :=
  JsString.all (fun c => (nat_of_ascii c <? 128)%nat) s.

(** A value that is not a string, or a string of ASCII text. *)
Definition asciiValue {number : Type} (v : JsVal number) : bool :=
  match v with
  | JStr s => isAscii s
  | _ => true
  end.

(** The [x-forwarded-for] header of the request, when it has one, is ASCII
    text. *)
Definition asciiHeader {number : Type} (request : @Request number) : bool :=
  match forwardedFor request with
  | Some forwarded => isAscii forwarded
  | None => true
  end.


(** A character of [A-Z0-9/ ] in either case. *)
Definition plateCharAnyCase (c : ascii) : bool :=
  JsString.isLower c || plateChar c.

(** A string is bare at its start when it does not begin with white space. *)
Definition bareStart (s : string) : bool :=
  match s with
  | EmptyString => true
  | String c _ => negb (JsString.isWhiteSpace c)
  end.

(** * Properties *)

(** ** Characters and strings *)

Ltac each_char c := destruct c as [[] [] [] [] [] [] [] []]; try reflexivity.

Lemma toUpperChar_idempotent (c : ascii) :
  JsString.toUpperChar (JsString.toUpperChar c) = JsString.toUpperChar c.
Proof. each_char c. Qed.

Lemma isWhiteSpace_toUpperChar (c : ascii) :
  JsString.isWhiteSpace (JsString.toUpperChar c) = JsString.isWhiteSpace c.
Proof. each_char c. Qed.

Lemma plateChar_toUpperChar (c : ascii) :
  plateCharAnyCase c = true -> plateChar (JsString.toUpperChar c) = true.
Proof. each_char c; vm_compute; discriminate. Qed.

Lemma length_map (f : ascii -> ascii) (s : string) :
  String.length (JsString.map f s) = String.length s.
Proof. induction s as [|c s IH]; simpl; congruence. Qed.

Lemma isEmpty_map (f : ascii -> ascii) (s : string) :
  JsString.isEmpty (JsString.map f s) = JsString.isEmpty s.
Proof. destruct s; reflexivity. Qed.

Lemma map_idempotent (f : ascii -> ascii) (s : string) :
  (forall c, f (f c) = f c) ->
  JsString.map f (JsString.map f s) = JsString.map f s.
Proof. intros Hf. induction s as [|c s IH]; simpl; congruence. Qed.

Lemma all_map (p q : ascii -> bool) (f : ascii -> ascii) (s : string) :
  (forall c, p c = true -> q (f c) = true) ->
  JsString.all p s = true -> JsString.all q (JsString.map f s) = true.
Proof.
  intros Hpq. induction s as [|c s IH]; simpl; [reflexivity|].
  rewrite !andb_true_iff. intros [Hc Hs]. auto.
Qed.

Lemma all_trimStart (p : ascii -> bool) (s : string) :
  JsString.all p s = true -> JsString.all p (JsString.trimStart s) = true.
Proof.
  induction s as [|c s IH]; simpl; [reflexivity|].
  destruct (JsString.isWhiteSpace c); simpl; [|tauto].
  rewrite andb_true_iff. intros [_ Hs]. auto.
Qed.

Lemma all_trimEnd (p : ascii -> bool) (s : string) :
  JsString.all p s = true -> JsString.all p (JsString.trimEnd s) = true.
Proof.
  induction s as [|c s IH]; simpl; [reflexivity|].
  rewrite andb_true_iff. intros [Hc Hs].
  destruct (JsString.isWhiteSpace c && JsString.isEmpty (JsString.trimEnd s));
    simpl; [reflexivity|].
  rewrite Hc. auto.
Qed.

Lemma all_trim (p : ascii -> bool) (s : string) :
  JsString.all p s = true -> JsString.all p (JsString.trim s) = true.
Proof. intros Hs. apply all_trimEnd, all_trimStart, Hs. Qed.

Section TrimMap.
Variable f : ascii -> ascii.
Hypothesis f_space : forall c, JsString.isWhiteSpace (f c) = JsString.isWhiteSpace c.

Lemma trimStart_map (s : string) :
  JsString.trimStart (JsString.map f s) = JsString.map f (JsString.trimStart s).
Proof.
  induction s as [|c s IH]; simpl; [reflexivity|].
  rewrite f_space. destruct (JsString.isWhiteSpace c); [exact IH | reflexivity].
Qed.

Lemma trimEnd_map (s : string) :
  JsString.trimEnd (JsString.map f s) = JsString.map f (JsString.trimEnd s).
Proof.
  induction s as [|c s IH]; simpl; [reflexivity|].
  rewrite f_space, IH, isEmpty_map.
  destruct (JsString.isWhiteSpace c && JsString.isEmpty (JsString.trimEnd s));
    reflexivity.
Qed.

Lemma trim_map (s : string) :
  JsString.trim (JsString.map f s) = JsString.map f (JsString.trim s).
Proof. unfold JsString.trim. rewrite trimStart_map. apply trimEnd_map. Qed.
End TrimMap.

Lemma trimEnd_idempotent (s : string) :
  JsString.trimEnd (JsString.trimEnd s) = JsString.trimEnd s.
Proof.
  induction s as [|c s IH]; simpl; [reflexivity|].
  destruct (JsString.isWhiteSpace c && JsString.isEmpty (JsString.trimEnd s))
    eqn:E; simpl; [reflexivity|].
  rewrite IH, E. reflexivity.
Qed.

Lemma bareStart_trimStart (s : string) : bareStart (JsString.trimStart s) = true.
Proof.
  induction s as [|c s IH]; simpl; [reflexivity|].
  destruct (JsString.isWhiteSpace c) eqn:E; [exact IH|]. simpl. now rewrite E.
Qed.

Lemma bareStart_trimEnd (s : string) :
  bareStart s = true -> bareStart (JsString.trimEnd s) = true.
Proof.
  destruct s as [|c s]; simpl; [reflexivity|].
  intros Hc. apply negb_true_iff in Hc. rewrite Hc. simpl. now rewrite Hc.
Qed.

Lemma trimStart_bare (s : string) :
  bareStart s = true -> JsString.trimStart s = s.
Proof.
  destruct s as [|c s]; simpl; [reflexivity|].
  intros Hc. apply negb_true_iff in Hc. now rewrite Hc.
Qed.

Lemma trim_idempotent (s : string) :
  JsString.trim (JsString.trim s) = JsString.trim s.
Proof.
  unfold JsString.trim.
  rewrite (trimStart_bare (JsString.trimEnd (JsString.trimStart s))).
  - apply trimEnd_idempotent.
  - apply bareStart_trimEnd, bareStart_trimStart.
Qed.

(** The normalised text of a normalised text is itself. *)
Lemma normalized_fixed (s : string) :
  JsString.toUpperCase (JsString.trim (JsString.toUpperCase (JsString.trim s)))
  = JsString.toUpperCase (JsString.trim s).
Proof.
  unfold JsString.toUpperCase.
  rewrite (trim_map _ isWhiteSpace_toUpperChar), trim_idempotent.
  apply map_idempotent, toUpperChar_idempotent.
Qed.

(** ** Plate normalisation *)

Section Normalize.
Context {number : Type}.

Lemma plateRegexTest_toUpperCase (s : string) :
  JsString.all plateCharAnyCase s = true ->
  JsString.isEmpty s = false ->
  plateRegexTest (JsString.toUpperCase s) = true.
Proof.
  intros Hall Hne. unfold plateRegexTest, JsString.toUpperCase.
  rewrite isEmpty_map, Hne. simpl.
  apply (all_map plateCharAnyCase); auto using plateChar_toUpperChar.
Qed.

Lemma length_toUpperCase (s : string) :
  JsString.length (JsString.toUpperCase s) = JsString.length s.
Proof. unfold JsString.length, JsString.toUpperCase. now rewrite length_map. Qed.

(** What a successful call of [normalizePlate] tells about its input. *)
Lemma normalizePlate_Normal (x : JsVal number) (k : string) :
  normalizePlate x = Normal k ->
  exists text, x = JStr text
    /\ k = JsString.toUpperCase (JsString.trim text)
    /\ 2 <= JsString.length k <= 7
    /\ plateRegexTest k = true.
Proof.
  unfold normalizePlate. destruct x as [| | b | n | text | items | props];
    try discriminate.
  set (normalized := JsString.toUpperCase (JsString.trim text)).
  destruct (JsString.length normalized =? 0) eqn:E0; [discriminate|].
  destruct (JsString.length normalized <? 2) eqn:E2; [discriminate|].
  destruct (7 <? JsString.length normalized) eqn:E7; [discriminate|].
  destruct (plateRegexTest normalized) eqn:Er; [|discriminate].
  simpl. intros [= <-]. exists text. repeat split; auto; lia.
Qed.

(** C8, as amended.  When every character of the input is a letter, a digit,
    a slash or a space and the input, once trimmed, has 2 to 7 characters,
    [normalizePlate] succeeds and returns the trimmed input in upper case. *)
Theorem normalizePlate_accepts (text : string) :
  JsString.all plateCharAnyCase text = true ->
  2 <= JsString.length (JsString.trim text) <= 7 ->
  normalizePlate (JStr text : JsVal number)
  = Normal (JsString.toUpperCase (JsString.trim text)).
Proof.
  intros Hall Hlen. unfold normalizePlate.
  rewrite length_toUpperCase.
  replace (JsString.length (JsString.trim text) =? 0) with false by lia.
  replace (JsString.length (JsString.trim text) <? 2) with false by lia.
  replace (7 <? JsString.length (JsString.trim text)) with false by lia.
  rewrite plateRegexTest_toUpperCase; [reflexivity | now apply all_trim |].
  destruct (JsString.trim text); [|reflexivity].
  unfold JsString.length in Hlen. simpl in Hlen. lia.
Qed.

(** C10.  [normalizePlate] is idempotent: a plate key it returns is accepted
    again and returned unchanged. *)
Theorem normalizePlate_idempotent (x : JsVal number) (k : string) :
  normalizePlate x = Normal k ->
  normalizePlate (JStr k : JsVal number) = Normal k.
Proof.
  intros Hx. destruct (normalizePlate_Normal x k Hx) as (text & _ & Hk & Hlen & Hre).
  assert (Hfix : JsString.toUpperCase (JsString.trim k) = k).
  { rewrite Hk. apply normalized_fixed. }
  unfold normalizePlate. rewrite Hfix, Hre.
  replace (JsString.length k =? 0) with false by lia.
  replace (JsString.length k <? 2) with false by lia.
  replace (7 <? JsString.length k) with false by lia.
  reflexivity.
Qed.

End Normalize.

(** C8, the input on which the claim as stated fails: two characters of the
    allowed set, one of them a space at the edge. *)
Lemma normalizePlate_rejects_padded :
  JsString.length " a" = 2
  /\ JsString.all plateCharAnyCase " a" = true
  /\ normalizePlate (JStr " a" : JsVal Z)
     = Throw (ValidationError "Plates must be between 2 and 7 characters.").
Proof. repeat split. Qed.

Lemma normalizePlate_accepts_witness :
  JsString.all plateCharAnyCase " ab1 " = true
  /\ 2 <= JsString.length (JsString.trim " ab1 ") <= 7
  /\ normalizePlate (JStr " ab1 " : JsVal Z) = Normal "AB1".
Proof.
  assert (Hlen : 2 <= JsString.length (JsString.trim " ab1 ") <= 7).
  { vm_compute. split; discriminate. }
  split; [reflexivity|]. split; [exact Hlen|].
  exact (normalizePlate_accepts (number := Z) " ab1 " eq_refl Hlen).
Defined.

Lemma normalizePlate_idempotent_witness :
  normalizePlate (JStr " ab1 " : JsVal Z) = Normal "AB1"
  /\ normalizePlate (JStr "AB1" : JsVal Z) = Normal "AB1".
Proof.
  split; [reflexivity|].
  exact (normalizePlate_idempotent (JStr " ab1 " : JsVal Z) "AB1" eq_refl).
Defined.

(** ** The rate limiter *)

Lemma isRateLimited_opens (buckets : gmap string Bucket) (ip : string) (now : Z) :
  opensWindow buckets ip now ->
  isRateLimited buckets ip now
  = (<[ip := {| count := 1; windowStart := now |}]> buckets, false).
Proof.
  unfold opensWindow, isRateLimited. destruct (buckets !! ip) as [bucket|]; auto.
  intros Hold. now replace (RATE_LIMIT_WINDOW_MS <=? now - windowStart bucket)
    with true by lia.
Qed.

Lemma isRateLimited_counts (buckets : gmap string Bucket) (ip : string)
  (c start now : Z) :
  buckets !! ip = Some {| count := c; windowStart := start |} ->
  now - start < RATE_LIMIT_WINDOW_MS ->
  c < RATE_LIMIT_MAX_REQUESTS ->
  isRateLimited buckets ip now
  = (<[ip := {| count := c + 1; windowStart := start |}]> buckets, false).
Proof.
  intros Hb Hin Hc. unfold isRateLimited. rewrite Hb. simpl.
  replace (RATE_LIMIT_WINDOW_MS <=? now - start) with false by lia.
  now replace (RATE_LIMIT_MAX_REQUESTS <=? c) with false by lia.
Qed.

Lemma isRateLimited_refuses (buckets : gmap string Bucket) (ip : string)
  (c start now : Z) :
  buckets !! ip = Some {| count := c; windowStart := start |} ->
  now - start < RATE_LIMIT_WINDOW_MS ->
  RATE_LIMIT_MAX_REQUESTS <= c ->
  isRateLimited buckets ip now = (buckets, true).
Proof.
  intros Hb Hin Hc. unfold isRateLimited. rewrite Hb. simpl.
  replace (RATE_LIMIT_WINDOW_MS <=? now - start) with false by lia.
  now replace (RATE_LIMIT_MAX_REQUESTS <=? c) with true by lia.
Qed.

(** Calls inside the window, as long as the count stays within the maximum,
    are all admitted and counted. *)
Lemma isRateLimitedEach_counts (times : list Z) :
  forall (buckets : gmap string Bucket) (ip : string) (c start : Z),
  buckets !! ip = Some {| count := c; windowStart := start |} ->
  Forall (fun now => now - start < RATE_LIMIT_WINDOW_MS) times ->
  c + Z.of_nat (length times) <= RATE_LIMIT_MAX_REQUESTS ->
  exists final,
    isRateLimitedEach buckets ip times
    = (final, replicate (length times) false)
    /\ final !! ip
       = Some {| count := c + Z.of_nat (length times); windowStart := start |}.
Proof.
  induction times as [|now rest IH]; intros buckets ip c start Hb Hin Hc.
  - exists buckets. simpl. split; [reflexivity|]. now rewrite Z.add_0_r.
  - apply Forall_cons in Hin as [Hnow Hrest]. simpl length in *.
    simpl. rewrite (isRateLimited_counts buckets ip c start now) by (auto; lia).
    destruct (IH (<[ip := {| count := c + 1; windowStart := start |}]> buckets)
                ip (c + 1) start) as (final & Hrun & Hfinal);
      [apply lookup_insert_eq | assumption | lia |].
    exists final. rewrite Hrun. split; [reflexivity|].
    rewrite Hfinal. do 2 f_equal. lia.
Qed.

(** C6.  When the first call of a client opens a window at [t], that call and
    19 more inside the window are all admitted; after them every call inside
    the window is refused and changes nothing; and a call at [t + 60001] is
    admitted again, with a bucket reset to a count of 1. *)
Theorem isRateLimited_window (buckets : gmap string Bucket) (ip : string)
  (t : Z) (later : list Z) :
  opensWindow buckets ip t ->
  length later = 19%nat ->
  Forall (fun now => now - t < RATE_LIMIT_WINDOW_MS) later ->
  exists full,
    isRateLimitedEach buckets ip (t :: later) = (full, replicate 20 false)
    /\ full !! ip = Some {| count := 20; windowStart := t |}
    /\ (forall now, now - t < RATE_LIMIT_WINDOW_MS ->
        isRateLimited full ip now = (full, true))
    /\ isRateLimited full ip (t + 60001)
       = (<[ip := {| count := 1; windowStart := t + 60001 |}]> full, false).
Proof.
  intros Hopen Hlen Hin.
  destruct (isRateLimitedEach_counts later
              (<[ip := {| count := 1; windowStart := t |}]> buckets) ip 1 t)
    as (full & Hrun & Hfull);
    [apply lookup_insert_eq | assumption | rewrite Hlen; unfold RATE_LIMIT_MAX_REQUESTS; lia |].
  rewrite Hlen in Hrun, Hfull. change (1 + Z.of_nat 19) with 20 in Hfull.
  exists full. split; [|split; [exact Hfull | split]].
  - simpl. now rewrite (isRateLimited_opens buckets ip t Hopen), Hrun.
  - intros now Hnow. apply (isRateLimited_refuses full ip 20 t now); auto.
    unfold RATE_LIMIT_MAX_REQUESTS. lia.
  - apply isRateLimited_opens. unfold opensWindow. rewrite Hfull. simpl.
    unfold RATE_LIMIT_WINDOW_MS. lia.
Qed.

Lemma isRateLimited_window_witness :
  opensWindow ∅ "203.0.113.7" 1000
  /\ exists full,
       isRateLimitedEach ∅ "203.0.113.7" (1000 :: replicate 19 1000)
       = (full, replicate 20 false)
       /\ full !! "203.0.113.7" = Some {| count := 20; windowStart := 1000 |}
       /\ (forall now, now - 1000 < RATE_LIMIT_WINDOW_MS ->
           isRateLimited full "203.0.113.7" now = (full, true))
       /\ isRateLimited full "203.0.113.7" (1000 + 60001)
          = (<["203.0.113.7" := {| count := 1; windowStart := 1000 + 60001 |}]>
               full, false).
Proof.
  split; [exact I|].
  apply (isRateLimited_window ∅ "203.0.113.7" 1000 (replicate 19 1000)).
  - exact I.
  - reflexivity.
  - repeat constructor.
Defined.

(** ** The cache *)

Section Cache.
Context {number : Type}.

(** C7.  A result stored at [t0] is returned by a lookup 299999 ms later,
    which leaves the cache as it is; a lookup 300001 ms after [t0] returns
    nothing and removes the entry. *)
Theorem cache_round_trip (cache : gmap string (@CacheEntry number))
  (k : string) (r : @Returned number) (t0 : Z) :
  let stored := setCachedResult cache k r t0 in
  getCachedResult stored k (t0 + 299999) = (stored, Some r)
  /\ getCachedResult stored k (t0 + 300001) = (delete k stored, None)
  /\ delete k stored !! k = None.
Proof.
  unfold setCachedResult, getCachedResult, CACHE_TTL_MS. simpl.
  rewrite lookup_insert_eq. simpl.
  replace (t0 + 5 * 60 * 1000 <? t0 + 299999) with false by lia.
  replace (t0 + 5 * 60 * 1000 <? t0 + 300001) with true by lia.
  repeat split. apply lookup_delete_eq.
Qed.

(** The entry lives up to and including its expiry time. *)
Lemma cache_hit_until_expiry (cache : gmap string (@CacheEntry number))
  (k : string) (r : @Returned number) (t0 now : Z) :
  now <= t0 + CACHE_TTL_MS ->
  getCachedResult (setCachedResult cache k r t0) k now
  = (setCachedResult cache k r t0, Some r).
Proof.
  intros Hnow. unfold setCachedResult, getCachedResult.
  rewrite lookup_insert_eq. simpl.
  now replace (t0 + CACHE_TTL_MS <? now) with false by lia.
Qed.

End Cache.

(** ** Substrings *)

Lemma append_cons (c : ascii) (a b : string) :
  String c a +:+ b = String c (a +:+ b).
Proof. reflexivity. Qed.

Lemma append_empty (b : string) : EmptyString +:+ b = b.
Proof. reflexivity. Qed.

Lemma append_assoc (a b c : string) : (a +:+ b) +:+ c = a +:+ (b +:+ c).
Proof.
  induction a as [|x a IH]; [reflexivity|].
  now rewrite !append_cons, IH.
Qed.

Lemma prefix_append (p rest : string) : String.prefix p (p +:+ rest) = true.
Proof.
  induction p as [|c p IH]; [now destruct rest|].
  rewrite append_cons. simpl. destruct (ascii_dec c c); [exact IH | congruence].
Qed.

Lemma prefix_split (p s : string) :
  String.prefix p s = true -> exists rest, s = p +:+ rest.
Proof.
  revert s. induction p as [|c p IH]; intros s Hp.
  - exists s. reflexivity.
  - destruct s as [|d s]; [discriminate|]. simpl in Hp.
    destruct (ascii_dec c d) as [<-|]; [|discriminate].
    destruct (IH s Hp) as [rest ->]. exists rest. reflexivity.
Qed.

Lemma includes_append (before needle rest : string) :
  JsString.includes (before +:+ needle +:+ rest) needle = true.
Proof.
  induction before as [|c before IH].
  - rewrite append_empty. destruct needle as [|d needle]; [now destruct rest|].
    rewrite append_cons. cbn [JsString.includes].
    rewrite <- append_cons, prefix_append. reflexivity.
  - rewrite append_cons. cbn [JsString.includes]. rewrite IH.
    apply orb_true_r.
Qed.

Lemma includes_split (s needle : string) :
  JsString.includes s needle = true ->
  exists before rest, s = before +:+ needle +:+ rest.
Proof.
  induction s as [|c s IH]; cbn [JsString.includes]; intros Hs.
  - rewrite orb_false_r in Hs. destruct (prefix_split _ _ Hs) as [rest ->].
    exists EmptyString, rest. reflexivity.
  - apply orb_true_iff in Hs as [Hp | Hs].
    + destruct (prefix_split _ _ Hp) as [rest ->].
      exists EmptyString, rest. reflexivity.
    + destruct (IH Hs) as (before & rest & ->).
      exists (String c before), rest. reflexivity.
Qed.

(** A text that includes [left + needle + right] includes [needle]. *)
Lemma includes_inner (s left needle right : string) :
  JsString.includes s (left +:+ needle +:+ right) = true ->
  JsString.includes s needle = true.
Proof.
  intros Hs. destruct (includes_split _ _ Hs) as (before & rest & ->).
  rewrite !append_assoc, <- (append_assoc before left).
  apply includes_append.
Qed.

(** ** The response interpreter *)

Section Interpreter.
Context {number : Type} `{JsNumber number}.

(** On a textual payload the test for [available] comes first, and every
    text that includes [not available] or [unavailable] passes it: of the
    three phrases of the second test only [already in use] can be reached. *)
Lemma text_with_available (s : string) (httpStatus : Z) :
  httpStatus < 500 ->
  JsString.includes (JsString.toLowerCase s) "not available"
  || JsString.includes (JsString.toLowerCase s) "unavailable" = true ->
  interpretDmvResponse (JStr s : JsVal number) httpStatus
  = Normal (PlainResult availableResult).
Proof.
  intros Hstatus Hphrase. unfold interpretDmvResponse.
  replace (500 <=? httpStatus) with false by lia.
  assert (Hav : JsString.includes (JsString.toLowerCase s) "available" = true).
  { apply orb_true_iff in Hphrase as [Hs | Hs].
    - apply (includes_inner _ "not " "available" EmptyString). exact Hs.
    - apply (includes_inner _ "un" "available" EmptyString). exact Hs. }
  cbv zeta. rewrite Hav, orb_true_r. reflexivity.
Qed.

(** C1, what the code does on the payload of the claim: the text includes
    [available], so the first test answers before the test for
    [not available] is reached. *)
Theorem interpret_sorry_not_available (httpStatus : Z) :
  httpStatus < 500 ->
  interpretDmvResponse (JStr "Sorry, not available" : JsVal number) httpStatus
  = Normal (PlainResult availableResult).
Proof. intros Hstatus. now apply text_with_available. Qed.

(** The lookup in [messageMap] finds an inherited value exactly for the names
    of [Object.prototype]. *)
Lemma messageMap_inherited (key : string) :
  messageMapOwn (number := number) key = None ->
  existsb (String.eqb key) objectPrototypeNames = true ->
  messageMap (number := number) key = Some (Inherited key).
Proof. intros Hown Hin. unfold messageMap. now rewrite Hown, Hin. Qed.

(** Away from the two slips (a [code] that cannot be converted to a string, a
    message that names a property of [Object.prototype]) the interpreter
    returns an object [{status, message}], the message, if it is a string,
    being ASCII text. *)
Lemma interpret_plain_result (payload : JsVal number) (httpStatus : Z)
  (rendered : string) :
  ToString (codeField payload) = Normal rendered ->
  asciiValue (messageField payload) = true ->
  existsb (String.eqb (normalizeMessage (messageField payload)))
    objectPrototypeNames = false ->
  exists r, interpretDmvResponse payload httpStatus = Normal (PlainResult r).
Proof.
  intros Hcode _ Hproto. unfold interpretDmvResponse.
  destruct (500 <=? httpStatus); [eauto|].
  assert (Hobj : exists r,
    interpretObject payload (JsString.toUpperCase rendered) (messageField payload)
      (normalizeMessage (messageField payload)) = PlainResult r).
  { unfold interpretObject, messageMap. rewrite Hproto.
    destruct (messageMapOwn _); [eauto|].
    repeat match goal with
           | |- context [if ?b then _ else _] => destruct b; [eauto|]
           end.
    destruct (messageField payload); eauto.
    match goal with
    | |- context [if ?b then _ else _] => destruct b; eauto
    end. }
  destruct Hobj as [r Hr].
  destruct payload; cbv zeta; eauto;
    try (rewrite Hcode; simpl; rewrite Hr; eauto).
  repeat match goal with
         | |- context [if ?b then _ else _] => destruct b; eauto
         end.
Qed.

(** C3, as amended.  On an object payload whose code converts to a string,
    the converted code and the message being ASCII text, when the lookup in
    [messageMap] finds nothing and none of the four conditions on flags and
    codes holds, a message that is a non-empty string and whose trimmed
    lower-case form does not start with [message.] makes the result [taken],
    with that message verbatim. *)
Theorem interpret_message_verbatim (props : list (string * JsVal number))
  (httpStatus : Z) (rendered m : string) :
  let payload := JObj props in
  let code := JsString.toUpperCase rendered in
  httpStatus < 500 ->
  ToString (codeField payload) = Normal rendered ->
  isAscii rendered = true ->
  messageField payload = JStr m ->
  isAscii m = true ->
  messageMap (number := number) (normalizeMessage (JStr m : JsVal number)) = None ->
  successAvailable payload code = false ->
  signalsAvailable payload code = false ->
  signalsInvalid payload code = false ->
  signalsTaken payload code = false ->
  0 < JsString.length m ->
  JsString.startsWith (normalizeMessage (JStr m : JsVal number)) "message." = false ->
  interpretDmvResponse payload httpStatus
  = Normal (PlainResult {| status := taken; message := JStr m |}).
Proof.
  intros payload code Hstatus Hcode _ Hmsg _ Hmap H1 H2 H3 H4 Hlen Hprefix.
  unfold interpretDmvResponse.
  replace (500 <=? httpStatus) with false by lia.
  subst payload. cbv beta iota. rewrite Hcode. cbn [bind]. cbv zeta.
  rewrite Hmsg. unfold interpretObject. fold code.
  rewrite Hmap, H1, H2, H3, H4, Hprefix.
  replace (0 <? JsString.length m) with true by lia. reflexivity.
Qed.

End Interpreter.

(** C1 at HTTP status 200. *)
Lemma interpret_sorry_not_available_witness :
  200 < 500
  /\ interpretDmvResponse (JStr "Sorry, not available" : JsVal Z) 200
     = Normal (PlainResult availableResult).
Proof.
  split; [reflexivity|].
  apply (interpret_sorry_not_available (number := Z) 200). reflexivity.
Defined.

(** C2, an input on which the interpreter returns no result object: the
    message [constructor] is found in [messageMap] through the prototype, and
    the value returned, the function [Object], has no [status]. *)
Theorem interpret_returns_inherited :
  interpretDmvResponse (JObj [("message", JStr "constructor")] : JsVal Z) 200
  = Normal (Inherited "constructor")
  /\ statusOf (Inherited "constructor" : @Returned Z) = None.
Proof. split; reflexivity. Qed.

(** An input on which the interpreter throws: [String] cannot convert a
    [code] that is an object with a property [toString] of its own. *)
Lemma interpret_throws :
  interpretDmvResponse
    (JObj [("code", JObj [("toString", JNull)])] : JsVal Z) 200
  = Throw cannotConvert.
Proof. reflexivity. Qed.

(** C3, the input on which the claim as stated fails: no earlier case
    matches and the message is a non-empty string that is none of the five
    keys, but it starts with [message.] and the result is [unavailable]. *)
Lemma interpret_unknown_message_key :
  let payload : JsVal Z := JObj [("message", JStr "message.foo")] in
  messageField payload = JStr "message.foo"
  /\ ToString (codeField payload) = Normal EmptyString
  /\ messageMap (number := Z) (normalizeMessage (messageField payload)) = None
  /\ successAvailable payload EmptyString = false
  /\ signalsAvailable payload EmptyString = false
  /\ signalsInvalid payload EmptyString = false
  /\ signalsTaken payload EmptyString = false
  /\ messageMapOwn (number := Z) "message.foo" = None
  /\ interpretDmvResponse payload 200 = Normal (PlainResult uninterpretedResult)
  /\ interpretDmvResponse payload 200
     <> Normal (PlainResult {| status := taken; message := JStr "message.foo" |}).
Proof. cbv zeta. repeat split. discriminate. Qed.

Lemma interpret_message_verbatim_witness :
  let payload : JsVal Z := JObj [("message", JStr "Plate is reserved")] in
  ToString (codeField payload) = Normal EmptyString
  /\ isAscii EmptyString = true
  /\ messageField payload = JStr "Plate is reserved"
  /\ isAscii "Plate is reserved" = true
  /\ messageMap (number := Z) (normalizeMessage (messageField payload)) = None
  /\ interpretDmvResponse payload 200
     = Normal (PlainResult
                 {| status := taken; message := JStr "Plate is reserved" |}).
Proof.
  cbv zeta. split; [reflexivity|]. split; [reflexivity|]. split; [reflexivity|].
  split; [reflexivity|]. split; [reflexivity|].
  apply (interpret_message_verbatim (number := Z)
           [("message", JStr "Plate is reserved")] 200 EmptyString
           "Plate is reserved");
    reflexivity.
Defined.

(** The interpreter on the payloads the specification lists as tests. *)
Example interpret_can_be_requested :
  interpretDmvResponse (JStr "This plate can be requested." : JsVal Z) 200
  = Normal (PlainResult availableResult).
Proof. reflexivity. Qed.

Example interpret_message_invalid :
  interpretDmvResponse (JObj [("message", JStr "MESSAGE.INVALID")] : JsVal Z) 200
  = Normal (PlainResult invalidResult).
Proof. reflexivity. Qed.

Example interpret_available_flag :
  interpretDmvResponse (JObj [("available", JBool true)] : JsVal Z) 200
  = Normal (PlainResult availableResult).
Proof. reflexivity. Qed.

Example interpret_empty_object :
  interpretDmvResponse (JObj [] : JsVal Z) 200
  = Normal (PlainResult uninterpretedResult).
Proof. reflexivity. Qed.

Example interpret_503 :
  interpretDmvResponse (JObj [("available", JBool true)] : JsVal Z) 503
  = Normal (PlainResult serviceDownResult).
Proof. reflexivity. Qed.

Example interpret_already_in_use :
  interpretDmvResponse (JStr "That plate is already in use" : JsVal Z) 200
  = Normal (PlainResult takenResult).
Proof. reflexivity. Qed.

Example interpret_numeric_code :
  interpretDmvResponse (JObj [("code", JNum 12); ("available", JBool false)]) 200
  = Normal (PlainResult takenResult).
Proof. reflexivity. Qed.

Example interpret_code_in_array :
  interpretDmvResponse (JObj [("code", JArr [JStr "taken"])] : JsVal Z) 200
  = Normal (PlainResult takenResult).
Proof. reflexivity. Qed.

(** ** The route handler *)

Section Handler.
Context {number : Type} `{JsNumber number}.

Lemma server_eta (srv : @Server number) :
  {| requestBuckets := requestBuckets srv; plateCache := plateCache srv |} = srv.
Proof. now destruct srv. Qed.

Lemma isRateLimited_true_unchanged (buckets : gmap string Bucket) (ip : string)
  (now : Z) :
  snd (isRateLimited buckets ip now) = true ->
  isRateLimited buckets ip now = (buckets, true).
Proof.
  unfold isRateLimited. destruct (buckets !! ip) as [bucket|]; [|discriminate].
  destruct (RATE_LIMIT_WINDOW_MS <=? now - windowStart bucket); [discriminate|].
  destruct (RATE_LIMIT_MAX_REQUESTS <=? count bucket); [reflexivity|discriminate].
Qed.

Lemma normalizePlate_throws_validation (x : JsVal number) (err : JsError) :
  normalizePlate x = Throw err -> isValidationError err = true.
Proof.
  unfold normalizePlate. destruct x; try (intros [= <-]; reflexivity).
  repeat match goal with
         | |- context [if ?b then _ else _] => destruct b
         end; intros [= <-]; reflexivity.
Qed.

(** C5, as amended.  The handler checks the rate limit before it looks at the
    plate: a request of a client whose window is exhausted is answered 429
    whatever it carries, and the server is left as it was; a request that is
    admitted and whose plate [normalizePlate] refuses is answered 400, the
    [x-forwarded-for] header and the plate being ASCII text. *)
Theorem rate_limit_precedes_validation (srv : @Server number)
  (request : @Request number) (clock : Clock)
  (upstream : Completion (JsVal number * Z)) :
  let limited :=
    snd (isRateLimited (requestBuckets srv) (getClientIp request) (tRate clock)) in
  let plate := get (or (body request) (JObj [])) "plate" in
  (limited = true ->
   checkPlate srv request clock upstream = (srv, tooManyRequests))
  /\ (limited = false ->
      asciiHeader request = true ->
      asciiValue plate = true ->
      (exists err, normalizePlate plate = Throw err) ->
      statusCode (snd (checkPlate srv request clock upstream)) = 400).
Proof.
  cbv zeta. split.
  - intros Hlim. apply isRateLimited_true_unchanged in Hlim.
    unfold checkPlate, checkPlateBegin. rewrite Hlim, server_eta. reflexivity.
  - intros Hlim _ _ [err Herr]. unfold checkPlate, checkPlateBegin.
    destruct (isRateLimited _ _ _) as [buckets limited]. simpl in Hlim.
    subst limited. rewrite Herr.
    pose proof (normalizePlate_throws_validation _ _ Herr) as Hval.
    destruct (get _ "plate"); simpl; unfold onError; rewrite ?Hval; reflexivity.
Qed.

(** The handler never stores a result whose status is [unavailable]. *)
Lemma checkPlateBegin_keeps (srv : @Server number) (request : @Request number)
  (tRate tLookup : Z) :
  noUnavailableCached (plateCache srv) ->
  noUnavailableCached (plateCache (fst (checkPlateBegin srv request tRate tLookup))).
Proof.
  intros Hinv. unfold checkPlateBegin.
  destruct (isRateLimited _ _ _) as [buckets limited].
  destruct limited; [exact Hinv|].
  destruct (get _ "plate"); try exact Hinv;
    (destruct (normalizePlate _) as [normalized|err]; [|exact Hinv]);
    simpl; unfold getCachedResult;
    (destruct (plateCache srv !! normalized) as [entry|] eqn:E; [|exact Hinv]);
    (destruct (expiresAt entry <? tLookup); [|exact Hinv]);
    simpl; intros plate found Hfound;
    apply lookup_delete_Some in Hfound as [_ Hfound]; eauto.
Qed.

Lemma checkPlateEnd_keeps (srv : @Server number) (normalized : string)
  (payload : JsVal number) (httpStatus tStore : Z) :
  noUnavailableCached (plateCache srv) ->
  noUnavailableCached
    (plateCache (fst (checkPlateEnd srv normalized payload httpStatus tStore))).
Proof.
  intros Hinv. unfold checkPlateEnd.
  destruct (interpretDmvResponse payload httpStatus) as [interpreted|err];
    [|exact Hinv].
  destruct (statusOf interpreted) as [[| | |]|] eqn:E; try exact Hinv;
    simpl; unfold setCachedResult; intros plate found Hfound;
    apply lookup_insert_Some in Hfound as [[_ <-]|[_ Hfound]]; eauto;
    simpl; rewrite E; discriminate.
Qed.

Lemma reachable_noUnavailableCached (srv : @Server number) :
  reachable srv -> noUnavailableCached (plateCache srv).
Proof.
  induction 1 as [|srv srv' _ IH Hstep].
  - intros plate entry Hfound. simpl in Hfound.
    now rewrite lookup_empty in Hfound.
  - destruct Hstep; [now apply checkPlateBegin_keeps | now apply checkPlateEnd_keeps].
Qed.

(** An interpretation [unavailable] is answered 502 with the message of the
    interpreter, and the server is left as it was. *)
Lemma checkPlateEnd_unavailable (srv : @Server number) (normalized : string)
  (payload : JsVal number) (httpStatus tStore : Z) (interpreted : Returned) :
  interpretDmvResponse payload httpStatus = Normal interpreted ->
  statusOf interpreted = Some unavailable ->
  checkPlateEnd srv normalized payload httpStatus tStore
  = (srv, Normal {| statusCode := 502;
                    sent := ErrorBody (messageOf interpreted) None |}).
Proof.
  intros Hint Hst. unfold checkPlateEnd. now rewrite Hint, Hst.
Qed.

(** A reply 200 never carries the status [unavailable]. *)
Lemma checkPlate_200_not_unavailable (srv : @Server number)
  (request : @Request number) (clock : Clock)
  (upstream : Completion (JsVal number * Z)) :
  noUnavailableCached (plateCache srv) ->
  statusCode (snd (checkPlate srv request clock upstream)) = 200 ->
  exists spread cached,
    sent (snd (checkPlate srv request clock upstream)) = ResultBody spread cached
    /\ statusOf spread <> Some unavailable.
Proof.
  intros Hinv. unfold checkPlate, checkPlateBegin.
  destruct (isRateLimited _ _ _) as [buckets limited].
  destruct limited; [discriminate|].
  assert (Herr : forall (s : @Server number) err,
             statusCode (snd (s, @onError number err)) = 200 -> False).
  { intros s err. unfold onError. destruct (isValidationError err); discriminate. }
  destruct (get _ "plate") eqn:Eplate; try discriminate;
    (destruct (normalizePlate _) as [normalized|err];
       [|intros Hc; now apply Herr in Hc]);
    simpl; unfold getCachedResult;
    (destruct (plateCache srv !! normalized) as [entry|] eqn:E;
       [destruct (expiresAt entry <? tLookup clock);
          [|simpl; intros _; exists (result entry), true; split; eauto]|]);
    (destruct upstream as [[payload httpStatus]|err];
       [|intros Hc; now apply Herr in Hc]);
    unfold checkPlateEnd;
    (destruct (interpretDmvResponse payload httpStatus) as [interpreted|err];
       [|intros Hc; now apply Herr in Hc]);
    (destruct (statusOf interpreted) as [[| | |]|] eqn:Est; try discriminate);
    simpl; intros _; exists interpreted, false; (split; [reflexivity|]);
    rewrite Est; discriminate.
Qed.

End Handler.

(** ** The handler on concrete requests *)

(** C5, the request on which the claim as stated fails: the plate is invalid
    and the client has exhausted its window; the reply is 429, not 400. *)
Lemma throttled_before_validated :
  let request := requestFrom "198.51.100.4" "ab!" in
  normalizePlate (JStr "ab!" : JsVal Z) = Throw (ValidationError onlyAllowedMessage)
  /\ snd (isRateLimited (requestBuckets exhaustedServer) (getClientIp request)
            (tRate noon)) = true
  /\ statusCode (snd (checkPlate exhaustedServer request noon (Normal (JNull, 200))))
     = 429
  /\ statusCode (snd (checkPlate exhaustedServer request noon (Normal (JNull, 200))))
     <> 400.
Proof.
  cbv zeta. split; [vm_compute; reflexivity|]. split; [reflexivity|].
  split; [reflexivity|]. vm_compute. discriminate.
Qed.

Lemma rate_limit_precedes_validation_witness :
  checkPlate exhaustedServer (requestFrom "198.51.100.4" "ab!") noon
    (Normal (JNull, 200))
  = (exhaustedServer, tooManyRequests)
  /\ asciiHeader (requestFrom "198.51.100.4" "ab!") = true
  /\ asciiValue (JStr "ab!" : JsVal Z) = true
  /\ statusCode
       (snd (checkPlate initialServer (requestFrom "198.51.100.4" "ab!") noon
               (Normal (JNull, 200))))
     = 400.
Proof.
  split.
  - apply (proj1 (rate_limit_precedes_validation exhaustedServer
                    (requestFrom "198.51.100.4" "ab!") noon (Normal (JNull, 200)))).
    reflexivity.
  - split; [reflexivity|]. split; [reflexivity|].
    apply (proj2 (rate_limit_precedes_validation initialServer
                    (requestFrom "198.51.100.4" "ab!") noon (Normal (JNull, 200)))).
    + reflexivity.
    + reflexivity.
    + reflexivity.
    + exists (ValidationError onlyAllowedMessage). vm_compute. reflexivity.
Defined.

(** C4, a request after which the cache holds an entry with no status: the
    upstream answers [{message: 'constructor'}], the interpreter returns the
    function [Object], and the handler stores it under the plate key. *)
Theorem cache_stores_inherited :
  let after :=
    fst (checkPlate initialServer (requestFrom "198.51.100.4" "ab1") noon
           (Normal (JObj [("message", JStr "constructor")], 200))) in
  plateCache after !! "AB1"
  = Some {| result := Inherited "constructor"; expiresAt := 301200 |}
  /\ statusOf (Inherited "constructor" : @Returned Z) = None.
Proof. cbv zeta. split; reflexivity. Qed.

(** C9, the same request: the reply is 200 and the object sent has no
    [status]. *)
Theorem reply_200_without_status :
  snd (checkPlate initialServer (requestFrom "198.51.100.4" "ab1") noon
         (Normal (JObj [("message", JStr "constructor")], 200)))
  = {| statusCode := 200; sent := ResultBody (Inherited "constructor") false |}
  /\ statusOf (Inherited "constructor" : @Returned Z) = None.
Proof. split; reflexivity. Qed.

(** The spec's end-to-end example: a first request is answered from the
    upstream and stored, a repeat within five minutes is answered from the
    cache. *)
Example check_then_hit :
  let first :=
    checkPlate initialServer (requestFrom "198.51.100.4" "ab1") noon
      (Normal (JStr "This plate can be requested.", 200)) in
  let again :=
    checkPlate (fst first) (requestFrom "198.51.100.4" "ab1")
      {| tRate := 5000; tLookup := 5000; tStore := 5000 |}
      (Throw (FetchError "not called")) in
  snd first
  = {| statusCode := 200; sent := ResultBody (PlainResult availableResult) false |}
  /\ snd again
     = {| statusCode := 200; sent := ResultBody (PlainResult availableResult) true |}.
Proof. cbv zeta. split; reflexivity. Qed.

(** * Further properties of the code *)

(** ** [normalizePlate] *)

Lemma toUpperChar_toLowerChar (c : ascii) :
  JsString.toUpperChar (JsString.toLowerChar c) = JsString.toUpperChar c.
Proof. each_char c. Qed.

Lemma isWhiteSpace_toLowerChar (c : ascii) :
  JsString.isWhiteSpace (JsString.toLowerChar c) = JsString.isWhiteSpace c.
Proof. each_char c. Qed.

Lemma plateChar_toUpperChar_eq (c : ascii) :
  plateChar (JsString.toUpperChar c) = plateCharAnyCase c.
Proof. each_char c. Qed.

Lemma map_map (f g : ascii -> ascii) (s : string) :
  JsString.map f (JsString.map g s) = JsString.map (fun c => f (g c)) s.
Proof. induction s as [|c s IH]; simpl; congruence. Qed.

Lemma map_ext (f g : ascii -> ascii) (s : string) :
  (forall c, f c = g c) -> JsString.map f s = JsString.map g s.
Proof. intros Hfg. induction s as [|c s IH]; simpl; congruence. Qed.

Lemma all_map_eq (p : ascii -> bool) (f : ascii -> ascii) (s : string) :
  JsString.all p (JsString.map f s) = JsString.all (fun c => p (f c)) s.
Proof. induction s as [|c s IH]; simpl; congruence. Qed.

Lemma all_ext (p q : ascii -> bool) (s : string) :
  (forall c, p c = q c) -> JsString.all p s = JsString.all q s.
Proof. intros Hpq. induction s as [|c s IH]; simpl; congruence. Qed.

Lemma all_toUpperCase (s : string) :
  JsString.all plateChar (JsString.toUpperCase s)
  = JsString.all plateCharAnyCase s.
Proof.
  unfold JsString.toUpperCase. rewrite all_map_eq.
  apply all_ext, plateChar_toUpperChar_eq.
Qed.

Section NormalizeMore.
Context {number : Type}.

(** [normalizePlate] reads its input only through its trimmed, upper-case
    form. *)
Lemma normalizePlate_same_form (a b : string) :
  JsString.toUpperCase (JsString.trim a) = JsString.toUpperCase (JsString.trim b) ->
  normalizePlate (JStr a : JsVal number) = normalizePlate (JStr b : JsVal number).
Proof. intros Hab. unfold normalizePlate. now rewrite Hab. Qed.

(** Inputs of ASCII text that differ by case or by surrounding white space
    are normalised alike: trimming, upper-casing or lower-casing the input
    beforehand changes neither the key returned nor the error thrown. *)
Theorem normalizePlate_ignores_case_and_padding (text : string) :
  isAscii text = true ->
  normalizePlate (JStr (JsString.trim text) : JsVal number)
  = normalizePlate (JStr text : JsVal number)
  /\ normalizePlate (JStr (JsString.toUpperCase text) : JsVal number)
     = normalizePlate (JStr text : JsVal number)
  /\ normalizePlate (JStr (JsString.toLowerCase text) : JsVal number)
     = normalizePlate (JStr text : JsVal number).
Proof.
  intros _. repeat split; apply normalizePlate_same_form.
  - now rewrite trim_idempotent.
  - unfold JsString.toUpperCase.
    rewrite (trim_map _ isWhiteSpace_toUpperChar).
    apply map_idempotent, toUpperChar_idempotent.
  - unfold JsString.toUpperCase, JsString.toLowerCase.
    rewrite (trim_map _ isWhiteSpace_toLowerChar), map_map.
    apply map_ext, toUpperChar_toLowerChar.
Qed.

(** A key that [normalizePlate] returns has 2 to 7 characters, all of
    [A-Z0-9/ ], and is already trimmed and in upper case. *)
Theorem normalizePlate_key_shape (x : JsVal number) (k : string) :
  normalizePlate x = Normal k ->
  2 <= JsString.length k <= 7
  /\ JsString.all plateChar k = true
  /\ JsString.trim k = k
  /\ JsString.toUpperCase k = k.
Proof.
  intros Hx. destruct (normalizePlate_Normal x k Hx) as (text & _ & Hk & Hlen & Hre).
  split; [exact Hlen|]. split.
  - unfold plateRegexTest in Hre. now apply andb_true_iff in Hre.
  - rewrite Hk. unfold JsString.toUpperCase. split.
    + now rewrite (trim_map _ isWhiteSpace_toUpperChar), trim_idempotent.
    + apply map_idempotent, toUpperChar_idempotent.
Qed.

(** [normalizePlate] accepts a string of ASCII text exactly when its trimmed
    form has 2 to 7 characters, each a letter of either case, a digit, a
    slash or a space. *)
Theorem normalizePlate_succeeds_iff (text : string) :
  isAscii text = true ->
  (exists k, normalizePlate (JStr text : JsVal number) = Normal k)
  <-> 2 <= JsString.length (JsString.trim text) <= 7
      /\ JsString.all plateCharAnyCase (JsString.trim text) = true.
Proof.
  intros _. split.
  - intros [k Hk].
    destruct (normalizePlate_Normal _ k Hk) as (text' & [= <-] & -> & Hlen & Hre).
    rewrite length_toUpperCase in Hlen. split; [exact Hlen|].
    unfold plateRegexTest in Hre. apply andb_true_iff in Hre as [_ Hall].
    now rewrite all_toUpperCase in Hall.
  - intros [Hlen Hall]. exists (JsString.toUpperCase (JsString.trim text)).
    unfold normalizePlate. rewrite length_toUpperCase.
    replace (JsString.length (JsString.trim text) =? 0) with false by lia.
    replace (JsString.length (JsString.trim text) <? 2) with false by lia.
    replace (7 <? JsString.length (JsString.trim text)) with false by lia.
    rewrite plateRegexTest_toUpperCase; [reflexivity | exact Hall |].
    destruct (JsString.trim text); [|reflexivity].
    unfold JsString.length in Hlen. simpl in Hlen. lia.
Qed.

End NormalizeMore.

Lemma normalizePlate_key_shape_witness :
  normalizePlate (JStr " ab/1 " : JsVal Z) = Normal "AB/1"
  /\ 2 <= JsString.length "AB/1" <= 7
  /\ JsString.all plateChar "AB/1" = true
  /\ JsString.trim "AB/1" = "AB/1"
  /\ JsString.toUpperCase "AB/1" = "AB/1".
Proof.
  split; [reflexivity|].
  exact (normalizePlate_key_shape (JStr " ab/1 " : JsVal Z) "AB/1" eq_refl).
Defined.

(** ** [isRateLimited] *)

(** A call for one client leaves the bucket of every other client as it
    is. *)
Theorem isRateLimited_other_client (buckets : gmap string Bucket)
  (ip other : string) (now : Z) :
  ip <> other ->
  fst (isRateLimited buckets ip now) !! other = buckets !! other.
Proof.
  intros Hne. unfold isRateLimited.
  destruct (buckets !! ip) as [bucket|]; simpl.
  - destruct (RATE_LIMIT_WINDOW_MS <=? now - windowStart bucket); simpl;
      [now apply lookup_insert_ne|].
    destruct (RATE_LIMIT_MAX_REQUESTS <=? count bucket); simpl;
      [reflexivity | now apply lookup_insert_ne].
  - now apply lookup_insert_ne.
Qed.

Lemma isRateLimited_other_client_witness :
  "198.51.100.4" <> "203.0.113.7"
  /\ fst (isRateLimited (requestBuckets exhaustedServer) "203.0.113.7" 1000)
       !! "198.51.100.4"
     = Some {| count := 20; windowStart := 0 |}.
Proof.
  assert (Hne : "203.0.113.7" <> "198.51.100.4") by discriminate.
  split; [discriminate|].
  rewrite (isRateLimited_other_client (requestBuckets exhaustedServer)
             "203.0.113.7" "198.51.100.4" 1000 Hne).
  reflexivity.
Defined.

Lemma isRateLimited_countsInRange (buckets : gmap string Bucket) (ip : string)
  (now : Z) :
  countsInRange buckets -> countsInRange (fst (isRateLimited buckets ip now)).
Proof.
  intros Hinv. unfold isRateLimited.
  assert (Hopen : countsInRange
            (<[ip := {| count := 1; windowStart := now |}]> buckets)).
  { intros other bucket Hfound.
    apply lookup_insert_Some in Hfound as [[_ <-]|[_ Hfound]]; [|eauto].
    simpl. unfold RATE_LIMIT_MAX_REQUESTS. lia. }
  destruct (buckets !! ip) as [bucket|] eqn:E; [|exact Hopen].
  destruct (RATE_LIMIT_WINDOW_MS <=? now - windowStart bucket); [exact Hopen|].
  destruct (RATE_LIMIT_MAX_REQUESTS <=? count bucket) eqn:Emax; [exact Hinv|].
  simpl. intros other found Hfound.
  apply lookup_insert_Some in Hfound as [[_ <-]|[_ Hfound]]; [|eauto].
  simpl. specialize (Hinv ip bucket E). lia.
Qed.

Lemma isRateLimitedEach_app (first second : list Z) :
  forall (buckets : gmap string Bucket) (ip : string),
  isRateLimitedEach buckets ip (first ++ second)
  = let (middle, answers1) := isRateLimitedEach buckets ip first in
    let (final, answers2) := isRateLimitedEach middle ip second in
    (final, answers1 ++ answers2).
Proof.
  induction first as [|now rest IH]; intros buckets ip; simpl.
  - now destruct (isRateLimitedEach buckets ip second).
  - destruct (isRateLimited buckets ip now) as [counted limited].
    rewrite IH. destruct (isRateLimitedEach counted ip rest) as [middle answers1].
    now destruct (isRateLimitedEach middle ip second).
Qed.

(** Two windows in a row: when a call opens a window at [t], that call, 19
    more inside the window, a call at [t + 60000] and 19 more inside the
    window it opens are all admitted. *)
Lemma isRateLimitedEach_two_windows (buckets : gmap string Bucket)
  (ip : string) (t : Z) (before after : list Z) :
  opensWindow buckets ip t ->
  length before = 19%nat ->
  Forall (fun now => now - t < RATE_LIMIT_WINDOW_MS) before ->
  length after = 19%nat ->
  Forall (fun now => now - (t + 60000) < RATE_LIMIT_WINDOW_MS) after ->
  snd (isRateLimitedEach buckets ip (t :: before ++ (t + 60000) :: after))
  = replicate 40 false.
Proof.
  intros Hopen Hlen1 Hin1 Hlen2 Hin2.
  destruct (isRateLimitedEach_counts before
              (<[ip := {| count := 1; windowStart := t |}]> buckets) ip 1 t)
    as (full & Hrun1 & Hfull);
    [apply lookup_insert_eq | assumption
    | rewrite Hlen1; unfold RATE_LIMIT_MAX_REQUESTS; lia |].
  assert (Hreopen : opensWindow full ip (t + 60000)).
  { unfold opensWindow. rewrite Hfull. simpl. unfold RATE_LIMIT_WINDOW_MS. lia. }
  destruct (isRateLimitedEach_counts after
              (<[ip := {| count := 1; windowStart := t + 60000 |}]> full) ip 1
              (t + 60000))
    as (final & Hrun2 & _);
    [apply lookup_insert_eq | assumption
    | rewrite Hlen2; unfold RATE_LIMIT_MAX_REQUESTS; lia |].
  cbn [isRateLimitedEach]. rewrite (isRateLimited_opens buckets ip t Hopen).
  rewrite isRateLimitedEach_app, Hrun1. cbn [isRateLimitedEach].
  rewrite (isRateLimited_opens full ip (t + 60000) Hreopen), Hrun2.
  rewrite Hlen1, Hlen2. reflexivity.
Qed.

(** The window is fixed, not sliding.  When a call opens a window at [t],
    that call, 19 more inside the window, a call at [t + 60000] and 19 more
    inside the window it opens are all admitted: 40 calls in two windows.
    In particular the 19 calls may all come at [t + 59999] and the next 20
    at [t + 60000]: the 39 calls made within that one millisecond are all
    admitted. *)
Theorem isRateLimited_boundary_burst (buckets : gmap string Bucket)
  (ip : string) (t : Z) (before after : list Z) :
  opensWindow buckets ip t ->
  length before = 19%nat ->
  Forall (fun now => now - t < RATE_LIMIT_WINDOW_MS) before ->
  length after = 19%nat ->
  Forall (fun now => now - (t + 60000) < RATE_LIMIT_WINDOW_MS) after ->
  snd (isRateLimitedEach buckets ip (t :: before ++ (t + 60000) :: after))
  = replicate 40 false
  /\ snd (isRateLimitedEach buckets ip
            (t :: replicate 19 (t + 59999) ++ replicate 20 (t + 60000)))
     = replicate 40 false.
Proof.
  intros Hopen Hlen1 Hin1 Hlen2 Hin2. split.
  - now apply isRateLimitedEach_two_windows.
  - change (replicate 20 (t + 60000))
      with ((t + 60000) :: replicate 19 (t + 60000)).
    apply isRateLimitedEach_two_windows; auto using length_replicate.
    + apply Forall_replicate. unfold RATE_LIMIT_WINDOW_MS. lia.
    + apply Forall_replicate. unfold RATE_LIMIT_WINDOW_MS. lia.
Qed.

Lemma isRateLimited_boundary_burst_witness :
  opensWindow ∅ "203.0.113.7" 1000
  /\ snd (isRateLimitedEach ∅ "203.0.113.7"
            (1000 :: replicate 19 31000 ++ 61000 :: replicate 19 90000))
     = replicate 40 false
  /\ snd (isRateLimitedEach ∅ "203.0.113.7"
            (1000 :: replicate 19 (1000 + 59999) ++ replicate 20 (1000 + 60000)))
     = replicate 40 false.
Proof.
  split; [exact I|].
  apply (isRateLimited_boundary_burst ∅ "203.0.113.7" 1000
           (replicate 19 31000) (replicate 19 90000)).
  - exact I.
  - reflexivity.
  - repeat constructor.
  - reflexivity.
  - repeat constructor.
Defined.

Section Buckets.
Context {number : Type} `{JsNumber number}.

Lemma checkPlateBegin_buckets (srv : @Server number) (request : @Request number)
  (tRate tLookup : Z) :
  requestBuckets (fst (checkPlateBegin srv request tRate tLookup))
  = fst (isRateLimited (requestBuckets srv) (getClientIp request) tRate).
Proof.
  unfold checkPlateBegin.
  destruct (isRateLimited _ _ _) as [buckets limited]. simpl.
  destruct limited; [reflexivity|].
  destruct (get _ "plate"); try reflexivity;
    (destruct (normalizePlate _); [|reflexivity]);
    destruct (getCachedResult _ _ _) as [cache [hit|]]; reflexivity.
Qed.

Lemma checkPlateEnd_buckets (srv : @Server number) (normalized : string)
  (payload : JsVal number) (httpStatus tStore : Z) :
  requestBuckets (fst (checkPlateEnd srv normalized payload httpStatus tStore))
  = requestBuckets srv.
Proof.
  unfold checkPlateEnd.
  destruct (interpretDmvResponse payload httpStatus) as [interpreted|];
    [|reflexivity].
  destruct (statusOf interpreted) as [[| | |]|]; reflexivity.
Qed.

(** Whatever the interleaving of requests, the count of every bucket stays
    between 1 and 20. *)
Theorem reachable_countsInRange (srv : @Server number) :
  reachable srv -> countsInRange (requestBuckets srv).
Proof.
  induction 1 as [|srv srv' _ IH Hstep].
  - intros ip bucket Hfound. simpl in Hfound. now rewrite lookup_empty in Hfound.
  - destruct Hstep.
    + rewrite checkPlateBegin_buckets. now apply isRateLimited_countsInRange.
    + now rewrite checkPlateEnd_buckets.
Qed.

End Buckets.

Lemma reachable_countsInRange_witness :
  let srv := fst (checkPlateBegin initialServer
                    (requestFrom "198.51.100.4" "ab1") 1000 1000) in
  reachable srv
  /\ requestBuckets srv !! "198.51.100.4"
     = Some {| count := 1; windowStart := 1000 |}
  /\ 1 <= 1 <= RATE_LIMIT_MAX_REQUESTS.
Proof.
  cbv zeta.
  assert (Hreach : reachable (fst (checkPlateBegin initialServer
                    (requestFrom "198.51.100.4" "ab1") 1000 1000))).
  { eapply reachable_step; [apply reachable_initial | apply step_begin]. }
  split; [exact Hreach|]. split; [reflexivity|].
  exact (reachable_countsInRange _ Hreach "198.51.100.4"
           {| count := 1; windowStart := 1000 |} eq_refl).
Defined.

(** ** The cache *)

Section CacheMore.
Context {number : Type}.

(** A hit returns the result of a stored entry that has not expired and
    leaves the cache as it is: reading an entry does not extend its life. *)
Theorem getCachedResult_hit (cache : gmap string (@CacheEntry number))
  (plate : string) (now : Z) (r : @Returned number) :
  snd (getCachedResult cache plate now) = Some r ->
  exists entry,
    cache !! plate = Some entry
    /\ result entry = r
    /\ now <= expiresAt entry
    /\ fst (getCachedResult cache plate now) = cache.
Proof.
  unfold getCachedResult. destruct (cache !! plate) as [entry|]; [|discriminate].
  destruct (expiresAt entry <? now) eqn:E; [discriminate|].
  simpl. intros [= <-]. exists entry. repeat split. lia.
Qed.

Lemma getCachedResult_kept (cache : gmap string (@CacheEntry number))
  (plate other : string) (now : Z) (entry : @CacheEntry number) :
  fst (getCachedResult cache plate now) !! other = Some entry ->
  cache !! other = Some entry.
Proof.
  unfold getCachedResult. destruct (cache !! plate) as [found|]; simpl; auto.
  destruct (expiresAt found <? now); simpl; auto.
  intros Hfound. now apply lookup_delete_Some in Hfound.
Qed.

(** A lookup never adds an entry and never touches another key: what is in
    the cache afterwards was there before, and the entries of the other keys
    are all still there. *)
Theorem getCachedResult_only_removes (cache : gmap string (@CacheEntry number))
  (plate other : string) (now : Z) :
  (forall entry,
     fst (getCachedResult cache plate now) !! other = Some entry ->
     cache !! other = Some entry)
  /\ (other <> plate ->
      fst (getCachedResult cache plate now) !! other = cache !! other).
Proof.
  unfold getCachedResult. destruct (cache !! plate) as [entry|]; simpl;
    [|split; auto].
  destruct (expiresAt entry <? now); simpl; [|split; auto]. split.
  - intros found Hfound. now apply lookup_delete_Some in Hfound.
  - intros Hne. now apply lookup_delete_ne.
Qed.

(** The last write wins: storing twice under one key is storing the second
    result alone, with the life of the second write. *)
Theorem setCachedResult_overwrites (cache : gmap string (@CacheEntry number))
  (plate : string) (r1 r2 : @Returned number) (t1 t2 : Z) :
  setCachedResult (setCachedResult cache plate r1 t1) plate r2 t2
  = setCachedResult cache plate r2 t2.
Proof. unfold setCachedResult. apply insert_insert_eq. Qed.

(** A stored result is returned exactly up to 300000 ms after it was stored,
    that instant included. *)
Theorem cache_expiry_iff (cache : gmap string (@CacheEntry number))
  (plate : string) (r : @Returned number) (t0 now : Z) :
  snd (getCachedResult (setCachedResult cache plate r t0) plate now) = Some r
  <-> now <= t0 + 300000.
Proof.
  unfold setCachedResult, getCachedResult, CACHE_TTL_MS.
  rewrite lookup_insert_eq. simpl.
  destruct (t0 + 5 * 60 * 1000 <? now) eqn:E; simpl; split;
    try discriminate; try reflexivity; lia.
Qed.

(** Eviction is final: once a lookup has found an entry expired, later
    lookups of the key find nothing, even if the clock was set back. *)
Theorem cache_eviction_is_final (cache : gmap string (@CacheEntry number))
  (plate : string) (entry : @CacheEntry number) (now later : Z) :
  cache !! plate = Some entry ->
  expiresAt entry < now ->
  let evicted := fst (getCachedResult cache plate now) in
  evicted !! plate = None
  /\ getCachedResult evicted plate later = (evicted, None).
Proof.
  intros Hfound Hexp. cbv zeta.
  assert (Hev : fst (getCachedResult cache plate now) = delete plate cache).
  { unfold getCachedResult. rewrite Hfound.
    now replace (expiresAt entry <? now) with true by lia. }
  rewrite Hev. unfold getCachedResult. now rewrite lookup_delete_eq.
Qed.

End CacheMore.

Lemma getCachedResult_hit_witness :
  let cache : gmap string (@CacheEntry Z) :=
    setCachedResult ∅ "AB1" (PlainResult availableResult) 1000 in
  snd (getCachedResult cache "AB1" 2000) = Some (PlainResult availableResult)
  /\ exists entry,
       cache !! "AB1" = Some entry
       /\ result entry = PlainResult availableResult
       /\ 2000 <= expiresAt entry
       /\ fst (getCachedResult cache "AB1" 2000) = cache.
Proof.
  cbv zeta. split; [reflexivity|].
  exact (getCachedResult_hit
           (setCachedResult ∅ "AB1" (PlainResult availableResult) 1000)
           "AB1" 2000 (PlainResult availableResult) eq_refl).
Defined.

Lemma getCachedResult_only_removes_witness :
  let cache : gmap string (@CacheEntry Z) :=
    setCachedResult
      (setCachedResult ∅ "AB1" (PlainResult availableResult) 1000)
      "CD2" (PlainResult takenResult) 400000 in
  "CD2" <> "AB1"
  /\ fst (getCachedResult cache "AB1" 400000) !! "AB1" = None
  /\ fst (getCachedResult cache "AB1" 400000) !! "CD2" = cache !! "CD2".
Proof.
  cbv zeta. assert (Hne : "CD2" <> "AB1") by discriminate.
  split; [exact Hne|]. split; [reflexivity|].
  exact (proj2 (getCachedResult_only_removes
                  (setCachedResult
                     (setCachedResult ∅ "AB1" (PlainResult availableResult) 1000)
                     "CD2" (PlainResult takenResult) 400000)
                  "AB1" "CD2" 400000) Hne).
Defined.

Lemma cache_eviction_is_final_witness :
  let cache : gmap string (@CacheEntry Z) :=
    setCachedResult ∅ "AB1" (PlainResult availableResult) 1000 in
  let evicted := fst (getCachedResult cache "AB1" 400000) in
  cache !! "AB1"
  = Some {| result := PlainResult availableResult; expiresAt := 301000 |}
  /\ 301000 < 400000
  /\ evicted !! "AB1" = None
  /\ getCachedResult evicted "AB1" 2000 = (evicted, None).
Proof.
  cbv zeta. split; [reflexivity|]. split; [reflexivity|].
  exact (cache_eviction_is_final
           (setCachedResult ∅ "AB1" (PlainResult availableResult) 1000)
           "AB1" {| result := PlainResult availableResult; expiresAt := 301000 |}
           400000 2000 eq_refl eq_refl).
Defined.

(** ** [interpretDmvResponse] *)

Lemma toLowerChar_toUpperChar (c : ascii) :
  JsString.toLowerChar (JsString.toUpperChar c) = JsString.toLowerChar c.
Proof. each_char c. Qed.

Section InterpreterMore.
Context {number : Type} `{JsNumber number}.

(** On a textual payload the interpreter returns one of three fixed results,
    never [invalid]; it returns [taken] exactly when the text includes
    [already in use] and includes neither [available] nor
    [can be requested], whatever the case of the letters. *)
Theorem interpret_text (s : string) (httpStatus : Z) :
  httpStatus < 500 ->
  let text := JsString.toLowerCase s in
  let answer := interpretDmvResponse (JStr s : JsVal number) httpStatus in
  (answer = Normal (PlainResult availableResult)
   \/ answer = Normal (PlainResult takenResult)
   \/ answer = Normal (PlainResult uninterpretedResult))
  /\ (answer = Normal (PlainResult takenResult)
      <-> JsString.includes text "already in use" = true
          /\ JsString.includes text "available" = false
          /\ JsString.includes text "can be requested" = false).
Proof.
  intros Hstatus. cbv zeta. unfold interpretDmvResponse.
  replace (500 <=? httpStatus) with false by lia.
  destruct (JsString.includes (JsString.toLowerCase s) "can be requested") eqn:Ereq;
    simpl.
  { split; [auto|]. split; [discriminate | intros (_ & _ & [=])]. }
  destruct (JsString.includes (JsString.toLowerCase s) "available") eqn:Eav;
    simpl.
  { split; [auto|]. split; [discriminate | intros (_ & [=] & _)]. }
  destruct (JsString.includes (JsString.toLowerCase s) "not available") eqn:Enot.
  { apply (includes_inner _ "not " "available" EmptyString) in Enot. congruence. }
  destruct (JsString.includes (JsString.toLowerCase s) "unavailable") eqn:Eun.
  { apply (includes_inner _ "un" "available" EmptyString) in Eun. congruence. }
  destruct (JsString.includes (JsString.toLowerCase s) "already in use"); simpl.
  - split; [auto|]. split; auto.
  - split; [auto|]. split; [discriminate | intros ([=] & _)].
Qed.

(** The interpretation of a textual payload of ASCII text does not depend on
    the case of its letters. *)
Theorem interpret_text_ignores_case (s : string) (httpStatus : Z) :
  isAscii s = true ->
  interpretDmvResponse (JStr (JsString.toUpperCase s) : JsVal number) httpStatus
  = interpretDmvResponse (JStr s : JsVal number) httpStatus.
Proof.
  intros _. unfold interpretDmvResponse.
  assert (Hlow : JsString.toLowerCase (JsString.toUpperCase s)
                 = JsString.toLowerCase s).
  { unfold JsString.toLowerCase, JsString.toUpperCase. rewrite map_map.
    apply map_ext, toLowerChar_toUpperChar. }
  now rewrite Hlow.
Qed.



(** A payload that is a boolean, a number or an array has none of the fields
    the interpreter reads and is never interpreted. *)
Theorem interpret_primitive_payload (payload : JsVal number) (httpStatus : Z) :
  httpStatus < 500 ->
  match payload with JBool _ | JNum _ | JArr _ => True | _ => False end ->
  interpretDmvResponse payload httpStatus
  = Normal (PlainResult uninterpretedResult).
Proof.
  intros Hstatus Hshape. unfold interpretDmvResponse.
  replace (500 <=? httpStatus) with false by lia.
  destruct payload; try contradiction; reflexivity.
Qed.

(** The message of a result is the message field of the payload or one of
    the seven texts the interpreter writes itself. *)
Theorem interpret_message_origin (payload : JsVal number) (httpStatus : Z)
  (r : @Result number) :
  interpretDmvResponse payload httpStatus = Normal (PlainResult r) ->
  message r = messageField payload
  \/ exists text, In text fixedMessages /\ message r = JStr text.
Proof.
  assert (Hfixed : forall text, In text fixedMessages ->
            message r = JStr text ->
            message r = messageField payload
            \/ exists text, In text fixedMessages /\ message r = JStr text)
    by eauto.
  assert (Hor : forall text, In text fixedMessages ->
            message r = or (messageField payload) (JStr text) ->
            message r = messageField payload
            \/ exists text, In text fixedMessages /\ message r = JStr text).
  { intros text Hin. unfold or. destruct (ToBoolean _); eauto. }
  assert (Hobj : forall code,
            interpretObject payload code (messageField payload)
              (normalizeMessage (messageField payload)) = PlainResult r ->
            message r = messageField payload
            \/ exists text, In text fixedMessages /\ message r = JStr text).
  { intros code. unfold interpretObject, messageMap, messageMapOwn.
    repeat match goal with
           | |- context [if String.eqb ?a ?b then _ else _] =>
               destruct (String.eqb a b);
               [intros [= <-]; eapply Hfixed; [|reflexivity]; simpl; tauto|]
           end.
    destruct (existsb _ _); [discriminate|].
    destruct (successAvailable _ _);
      [intros [= <-]; eapply Hfixed; [|reflexivity]; simpl; tauto|].
    destruct (signalsAvailable _ _);
      [intros [= <-]; eapply Hor; [|reflexivity]; simpl; tauto|].
    destruct (signalsInvalid _ _);
      [intros [= <-]; eapply Hor; [|reflexivity]; simpl; tauto|].
    destruct (signalsTaken _ _);
      [intros [= <-]; eapply Hor; [|reflexivity]; simpl; tauto|].
    destruct (messageField payload) eqn:Emsg;
      try (intros [= <-]; eapply Hfixed; [|reflexivity]; simpl; tauto).
    destruct (_ && _); intros [= <-]; [now left|].
    eapply Hfixed; [|reflexivity]. simpl. tauto. }
  unfold interpretDmvResponse.
  destruct (500 <=? httpStatus);
    [intros [= <-]; eapply Hfixed; [|reflexivity]; simpl; tauto|].
  destruct payload;
    try (intros [= <-]; eapply Hfixed; [|reflexivity]; simpl; tauto);
    try (destruct (ToString _) as [rendered|]; [|discriminate];
         cbn [bind]; cbv zeta; intros [= Hr]; now apply Hobj in Hr).
  repeat match goal with
         | |- context [if ?b then _ else _] => destruct b
         end; intros [= <-]; eapply Hfixed; try reflexivity; simpl; tauto.
Qed.

End InterpreterMore.

Section InterpreterErrors.
Context {number : Type} `{JsNumber number}.

(** [String] fails in one way only. *)
Lemma ToString_throws :
  forall (v : JsVal number) (err : JsError),
  ToString v = Throw err -> err = cannotConvert.
Proof.
  fix ToString_throws 1. intros v err.
  destruct v as [| | b | n | s | items | props]; simpl;
    try (intros Hd; discriminate Hd).
  - destruct b; intros Hd; discriminate Hd.
  - induction items as [|x rest IH]; [intros Hd; discriminate Hd|].
    assert (Hx : forall e,
                match x with
                | JUndefined | JNull => Normal JsString.empty
                | _ => ToString x
                end = Throw e -> e = cannotConvert).
    { intros e. pose proof (ToString_throws x e) as Hrec.
      destruct x; try (intros Hd; discriminate Hd); exact Hrec. }
    destruct rest as [|y rest]; [apply Hx|].
    destruct (match x with
              | JUndefined | JNull => Normal JsString.empty
              | _ => ToString x
              end) as [first|e] eqn:Ex.
    + cbn [bind]. intros Hrest. apply IH.
      match type of Hrest with
      | bind ?c _ = _ => destruct c as [others|e] eqn:Ejoin
      end; [discriminate Hrest | exact Hrest].
    + cbn [bind]. intros [= <-]. now apply Hx.
  - destruct (ownProperty props "toString"); [|intros Hd; discriminate Hd].
    now intros [= <-].
Qed.

(** The interpreter throws in one case only: below status 500, on an object
    payload whose code cannot be converted to a string; the error is then the
    TypeError of that conversion. *)
Theorem interpret_throws_iff (payload : JsVal number) (httpStatus : Z)
  (err : JsError) :
  (interpretDmvResponse payload httpStatus = Throw err
   <-> httpStatus < 500
       /\ (exists props, payload = JObj props)
       /\ ToString (codeField payload) = Throw err)
  /\ (interpretDmvResponse payload httpStatus = Throw err ->
      err = cannotConvert).
Proof.
  assert (Hiff : interpretDmvResponse payload httpStatus = Throw err
   <-> httpStatus < 500
       /\ (exists props, payload = JObj props)
       /\ ToString (codeField payload) = Throw err).
  { unfold interpretDmvResponse.
    destruct (500 <=? httpStatus) eqn:Estatus.
    { split; [intros Hd; discriminate Hd | intros [Hlt _]; lia]. }
    destruct payload as [| | b | n | s | items | props];
      try (split; [intros Hd; discriminate Hd
                  | intros (_ & [props Hd] & _); discriminate Hd]).
    - split; [|intros (_ & [props Hd] & _); discriminate Hd].
      repeat match goal with
             | |- context [if ?c then _ else _] => destruct c
             end; intros Hd; discriminate Hd.
    - destruct (ToString (codeField (JObj props))) as [rendered|e] eqn:Ecode;
        cbn [bind].
      + split; [intros Hd; discriminate Hd | intros (_ & _ & Hd); discriminate Hd].
      + split.
        * intros [= <-]. split; [lia|]. split; [eauto | reflexivity].
        * intros (_ & _ & [= <-]). reflexivity. }
  split; [exact Hiff|].
  intros Hthrow. apply Hiff in Hthrow as (_ & _ & Hcode).
  exact (ToString_throws _ _ Hcode).
Qed.

(** A result with status [unavailable] is one of four fixed results: its
    message is written by the interpreter, never taken from the payload. *)
Theorem interpret_unavailable_fixed (payload : JsVal number) (httpStatus : Z)
  (v : @Returned number) :
  interpretDmvResponse payload httpStatus = Normal v ->
  statusOf v = Some unavailable ->
  In v [ PlainResult serviceDownResult; PlainResult unexpectedResult;
         PlainResult uninterpretedResult; PlainResult globalResult ].
Proof.
  assert (Hobj : forall code,
            statusOf (interpretObject payload code (messageField payload)
                        (normalizeMessage (messageField payload)))
            = Some unavailable ->
            In (interpretObject payload code (messageField payload)
                  (normalizeMessage (messageField payload)))
               [ PlainResult serviceDownResult; PlainResult unexpectedResult;
                 PlainResult uninterpretedResult; PlainResult globalResult ]).
  { intros code. unfold interpretObject, messageMap, messageMapOwn.
    repeat match goal with
           | |- context [if String.eqb ?a ?b then _ else _] =>
               destruct (String.eqb a b);
               [simpl; try (intros Hd; discriminate Hd); tauto|]
           end.
    destruct (existsb _ _); [intros Hd; discriminate Hd|].
    repeat match goal with
           | |- context [if ?c then _ else _] =>
               destruct c; [simpl; try (intros Hd; discriminate Hd); tauto|]
           end.
    destruct (messageField payload); simpl; try tauto.
    destruct (_ && _); simpl; [intros Hd; discriminate Hd | tauto]. }
  unfold interpretDmvResponse.
  destruct (500 <=? httpStatus); [intros [= <-] _; simpl; tauto|].
  destruct payload;
    try (intros [= <-] _; simpl; tauto);
    try (destruct (ToString _) as [rendered|]; [|intros Hd; discriminate Hd];
         cbn [bind]; cbv zeta; intros [= <-]; apply Hobj).
  repeat match goal with
         | |- context [if ?c then _ else _] => destruct c
         end; intros [= <-]; simpl; try (intros Hd; discriminate Hd); tauto.
Qed.

End InterpreterErrors.

Lemma interpret_text_witness :
  200 < 500
  /\ JsString.includes (JsString.toLowerCase "Plate ALREADY IN USE")
       "already in use" = true
  /\ interpretDmvResponse (JStr "Plate ALREADY IN USE" : JsVal Z) 200
     = Normal (PlainResult takenResult).
Proof.
  assert (Hstatus : 200 < 500) by reflexivity.
  split; [exact Hstatus|]. split; [reflexivity|].
  apply (proj2 (interpret_text (number := Z) "Plate ALREADY IN USE" 200 Hstatus)).
  repeat split.
Defined.



Lemma interpret_primitive_payload_witness :
  200 < 500
  /\ interpretDmvResponse (JArr [JStr "available"] : JsVal Z) 200
     = Normal (PlainResult uninterpretedResult).
Proof.
  split; [reflexivity|].
  exact (interpret_primitive_payload (number := Z) (JArr [JStr "available"]) 200
           eq_refl I).
Defined.

Lemma interpret_message_origin_witness :
  let payload : JsVal Z :=
    JObj [("code", JStr "invalid"); ("errorMessage", JStr "Too long")] in
  interpretDmvResponse payload 200
  = Normal (PlainResult {| status := invalid; message := JStr "Too long" |})
  /\ (JStr "Too long" = messageField payload
      \/ exists text,
           In text fixedMessages /\ (JStr "Too long" : JsVal Z) = JStr text).
Proof.
  cbv zeta. split; [reflexivity|].
  exact (interpret_message_origin (number := Z)
           (JObj [("code", JStr "invalid"); ("errorMessage", JStr "Too long")])
           200 {| status := invalid; message := JStr "Too long" |} eq_refl).
Defined.

Lemma interpret_throws_iff_witness :
  let payload : JsVal Z := JObj [("status", JObj [("toString", JBool true)])] in
  ToString (codeField payload) = Throw cannotConvert
  /\ interpretDmvResponse payload 404 = Throw cannotConvert.
Proof.
  cbv zeta. split; [reflexivity|].
  apply (proj2 (proj1 (interpret_throws_iff (number := Z)
                         (JObj [("status", JObj [("toString", JBool true)])])
                         404 cannotConvert))).
  split; [reflexivity|]. split; [eexists; reflexivity | reflexivity].
Defined.

Lemma interpret_unavailable_fixed_witness :
  let payload : JsVal Z := JObj [("message", JStr "message.global")] in
  interpretDmvResponse payload 200 = Normal (PlainResult globalResult)
  /\ In (PlainResult globalResult : @Returned Z)
       [ PlainResult serviceDownResult; PlainResult unexpectedResult;
         PlainResult uninterpretedResult; PlainResult globalResult ].
Proof.
  cbv zeta. split; [reflexivity|].
  exact (interpret_unavailable_fixed (number := Z)
           (JObj [("message", JStr "message.global")]) 200
           (PlainResult globalResult) eq_refl eq_refl).
Defined.

Lemma interpret_plain_result_witness :
  let payload : JsVal Z := JObj [("code", JNum 7); ("message", JStr "Reserved")] in
  ToString (codeField payload) = Normal "7"
  /\ asciiValue (messageField payload) = true
  /\ exists r, interpretDmvResponse payload 200 = Normal (PlainResult r).
Proof.
  cbv zeta. split; [reflexivity|]. split; [reflexivity|].
  exact (interpret_plain_result (number := Z)
           (JObj [("code", JNum 7); ("message", JStr "Reserved")]) 200 "7"
           eq_refl eq_refl eq_refl).
Defined.

(** ** The route handler *)

Section HandlerMore.
Context {number : Type} `{JsNumber number}.

Lemma onError_statusCode (err : JsError) :
  statusCode (@onError number err) = 400 \/ statusCode (@onError number err) = 502.
Proof. unfold onError. destruct (isValidationError err); simpl; auto. Qed.

(** Every reply has one of four status codes. *)
Theorem checkPlate_status_codes (srv : @Server number)
  (request : @Request number) (clock : Clock)
  (upstream : Completion (JsVal number * Z)) :
  In (statusCode (snd (checkPlate srv request clock upstream)))
     [200; 400; 429; 502].
Proof.
  assert (Herr : forall err, In (statusCode (@onError number err))
                               [200; 400; 429; 502]).
  { intros err. destruct (onError_statusCode err) as [-> | ->]; simpl; tauto. }
  unfold checkPlate, checkPlateBegin.
  destruct (isRateLimited _ _ _) as [buckets limited].
  destruct limited; [simpl; tauto|].
  destruct (get _ "plate"); try (simpl; tauto);
    (destruct (normalizePlate _) as [normalized|err]; [|apply Herr]);
    (destruct (getCachedResult _ _ _) as [cache [hit|]]; [simpl; tauto|]);
    (destruct upstream as [[payload httpStatus]|err]; [|apply Herr]);
    unfold checkPlateEnd;
    (destruct (interpretDmvResponse payload httpStatus) as [interpreted|err];
       [|apply Herr]);
    destruct (statusOf interpreted) as [[| | |]|]; simpl; tauto.
Qed.

(** Every request is counted against its client, whatever becomes of it:
    the [x-forwarded-for] header being ASCII text, the buckets after a
    request are those [isRateLimited] leaves, also when the plate is missing
    or invalid, on a hit and when the upstream fails. *)
Theorem checkPlate_counts_every_request (srv : @Server number)
  (request : @Request number) (clock : Clock)
  (upstream : Completion (JsVal number * Z)) :
  asciiHeader request = true ->
  requestBuckets (fst (checkPlate srv request clock upstream))
  = fst (isRateLimited (requestBuckets srv) (getClientIp request) (tRate clock)).
Proof.
  intros _.
  rewrite <- (checkPlateBegin_buckets srv request (tRate clock) (tLookup clock)).
  unfold checkPlate.
  destruct (checkPlateBegin srv request (tRate clock) (tLookup clock))
    as [srv1 [[reply|normalized]|err]]; try reflexivity.
  destruct upstream as [[payload httpStatus]|err]; [|reflexivity].
  pose proof (checkPlateEnd_buckets srv1 normalized payload httpStatus
                (tStore clock)) as Hend.
  destruct (checkPlateEnd srv1 normalized payload httpStatus (tStore clock))
    as [srv2 [reply|err]]; exact Hend.
Qed.

(** What the handler does when the key of the plate has a live entry. *)
Lemma checkPlate_on_live_entry (srv : @Server number)
  (request : @Request number) (clock : Clock)
  (upstream : Completion (JsVal number * Z)) (k : string)
  (entry : @CacheEntry number) :
  snd (isRateLimited (requestBuckets srv) (getClientIp request) (tRate clock))
  = false ->
  normalizePlate (get (or (body request) (JObj [])) "plate") = Normal k ->
  plateCache srv !! k = Some entry ->
  tLookup clock <= expiresAt entry ->
  checkPlate srv request clock upstream
  = ({| requestBuckets :=
          fst (isRateLimited (requestBuckets srv) (getClientIp request)
                 (tRate clock));
        plateCache := plateCache srv |},
     {| statusCode := 200; sent := ResultBody (result entry) true |}).
Proof.
  intros Hlim Hplate Hentry Hlive. unfold checkPlate, checkPlateBegin.
  destruct (isRateLimited _ _ _) as [buckets limited]. simpl in Hlim.
  subst limited. rewrite Hplate.
  assert (Hget : getCachedResult (plateCache srv) k (tLookup clock)
                 = (plateCache srv, Some (result entry))).
  { unfold getCachedResult. rewrite Hentry.
    now replace (expiresAt entry <? tLookup clock) with false by lia. }
  destruct (get _ "plate"); try discriminate Hplate.
  simpl. rewrite Hget. reflexivity.
Qed.

(** A hit answers without the upstream: when the client, whose
    [x-forwarded-for] header is ASCII text, is admitted and the key of the
    plate has an entry that has not expired, the reply is 200 with the stored
    result and [cached: true], the cache is left as it is, and nothing
    depends on what the upstream would have answered. *)
Theorem checkPlate_hit_skips_upstream (srv : @Server number)
  (request : @Request number) (clock : Clock)
  (upstream other : Completion (JsVal number * Z)) (k : string)
  (entry : @CacheEntry number) :
  asciiHeader request = true ->
  snd (isRateLimited (requestBuckets srv) (getClientIp request) (tRate clock))
  = false ->
  normalizePlate (get (or (body request) (JObj [])) "plate") = Normal k ->
  plateCache srv !! k = Some entry ->
  tLookup clock <= expiresAt entry ->
  snd (checkPlate srv request clock upstream)
  = {| statusCode := 200; sent := ResultBody (result entry) true |}
  /\ plateCache (fst (checkPlate srv request clock upstream)) = plateCache srv
  /\ checkPlate srv request clock upstream = checkPlate srv request clock other.
Proof.
  intros _ Hlim Hplate Hentry Hlive.
  rewrite (checkPlate_on_live_entry srv request clock upstream k entry) by assumption.
  rewrite (checkPlate_on_live_entry srv request clock other k entry) by assumption.
  repeat split.
Qed.


(** Only a reply 200 can add to the cache: after any other reply, every
    entry of the cache was there before the request. *)
Theorem checkPlate_error_caches_nothing (srv : @Server number)
  (request : @Request number) (clock : Clock)
  (upstream : Completion (JsVal number * Z)) (k : string)
  (entry : @CacheEntry number) :
  statusCode (snd (checkPlate srv request clock upstream)) <> 200 ->
  plateCache (fst (checkPlate srv request clock upstream)) !! k = Some entry ->
  plateCache srv !! k = Some entry.
Proof.
  unfold checkPlate, checkPlateBegin.
  destruct (isRateLimited _ _ _) as [buckets limited].
  destruct limited; [simpl; auto|].
  destruct (get _ "plate"); try (simpl; auto; fail);
    (destruct (normalizePlate _) as [normalized|err]; [|simpl; auto]);
    pose proof (getCachedResult_kept (plateCache srv) normalized k
                  (tLookup clock)) as Hsub;
    simpl; (destruct (getCachedResult _ _ _) as [cache [hit|]];
            [simpl; intros Hne; now contradiction Hne|]);
    simpl in Hsub;
    (destruct upstream as [[payload httpStatus]|err]; [|simpl; auto]);
    unfold checkPlateEnd;
    (destruct (interpretDmvResponse payload httpStatus) as [interpreted|err];
       [|simpl; auto]);
    destruct (statusOf interpreted) as [[| | |]|]; simpl; auto;
    intros Hne; now contradiction Hne.
Qed.

(** A body that is not an object carries no plate: an admitted request with
    such a body, its [x-forwarded-for] header being ASCII text, is answered
    400, [Missing plate value.] *)
Theorem checkPlate_body_without_plate (srv : @Server number)
  (request : @Request number) (clock : Clock)
  (upstream : Completion (JsVal number * Z)) :
  asciiHeader request = true ->
  snd (isRateLimited (requestBuckets srv) (getClientIp request) (tRate clock))
  = false ->
  match body request with JObj _ => False | _ => True end ->
  snd (checkPlate srv request clock upstream) = missingPlate.
Proof.
  intros _ Hlim Hbody. unfold checkPlate, checkPlateBegin.
  destruct (isRateLimited _ _ _) as [buckets limited]. simpl in Hlim.
  subst limited.
  assert (Hplate : get (or (body request) (JObj [])) "plate" = JUndefined).
  { unfold or. destruct (body request); try contradiction;
      try reflexivity; now destruct (ToBoolean _). }
  now rewrite Hplate.
Qed.

(** Whatever the interleaving of requests, every key of the cache is a
    well-formed plate key: 2 to 7 characters of [A-Z0-9/ ]. *)
Theorem interleaved_cache_keys (srv : @Server number) :
  interleaved srv ->
  forall (k : string) (entry : @CacheEntry number),
    plateCache srv !! k = Some entry ->
    2 <= JsString.length k <= 7 /\ JsString.all plateChar k = true.
Proof.
  induction 1 as [|srv request t1 t2 _ IH
                  |srv plate normalized payload httpStatus tStore _ IH Hplate];
    intros k entry Hfound.
  - simpl in Hfound. now rewrite lookup_empty in Hfound.
  - apply (IH k entry). revert Hfound. unfold checkPlateBegin.
    destruct (isRateLimited _ _ _) as [buckets limited].
    destruct limited; [simpl; auto|].
    destruct (get _ "plate"); try (simpl; auto; fail);
      (destruct (normalizePlate _) as [key|err]; [|simpl; auto]);
      pose proof (getCachedResult_kept (plateCache srv) key k t2) as Hsub;
      simpl; destruct (getCachedResult _ _ _) as [cache [hit|]]; simpl; auto.
  - revert Hfound. unfold checkPlateEnd.
    destruct (interpretDmvResponse payload httpStatus) as [interpreted|err];
      [|simpl; apply IH].
    destruct (statusOf interpreted) as [[| | |]|]; simpl; try apply IH;
      unfold setCachedResult; intros Hfound;
      apply lookup_insert_Some in Hfound as [[<- _]|[_ Hfound]];
      try (now apply (IH k entry));
      destruct (normalizePlate_Normal plate normalized Hplate)
        as (text & _ & _ & Hlen & Hre);
      (split; [exact Hlen|]); unfold plateRegexTest in Hre;
      now apply andb_true_iff in Hre.
Qed.

End HandlerMore.

Lemma checkPlate_hit_skips_upstream_witness :
  let srv : @Server Z :=
    {| requestBuckets := ∅;
       plateCache := setCachedResult ∅ "AB1" (PlainResult takenResult) 0 |} in
  let entry : @CacheEntry Z :=
    {| result := PlainResult takenResult; expiresAt := 300000 |} in
  asciiHeader (requestFrom "198.51.100.4" " ab1") = true
  /\ plateCache srv !! "AB1" = Some entry
  /\ tLookup noon <= expiresAt entry
  /\ snd (checkPlate srv (requestFrom "198.51.100.4" " ab1") noon
            (Throw (FetchError "offline")))
     = {| statusCode := 200; sent := ResultBody (PlainResult takenResult) true |}.
Proof.
  cbv zeta. split; [reflexivity|]. split; [reflexivity|].
  split; [vm_compute; discriminate|].
  apply (checkPlate_hit_skips_upstream
           {| requestBuckets := ∅;
              plateCache := setCachedResult ∅ "AB1" (PlainResult takenResult) 0 |}
           (requestFrom "198.51.100.4" " ab1") noon
           (Throw (FetchError "offline")) (Normal (JNull, 200)) "AB1"
           {| result := PlainResult takenResult; expiresAt := 300000 |}).
  - reflexivity.
  - reflexivity.
  - reflexivity.
  - reflexivity.
  - vm_compute. discriminate.
Defined.


Lemma checkPlate_error_caches_nothing_witness :
  let srv : @Server Z :=
    {| requestBuckets := ∅;
       plateCache := setCachedResult ∅ "AB1" (PlainResult takenResult) 0 |} in
  let entry : @CacheEntry Z :=
    {| result := PlainResult takenResult; expiresAt := 300000 |} in
  let after :=
    checkPlate srv (requestFrom "198.51.100.4" "cd2") noon
      (Normal (JObj [("message", JStr "message.global")], 200)) in
  statusCode (snd after) = 502
  /\ plateCache (fst after) !! "AB1" = Some entry
  /\ plateCache (fst after) !! "CD2" = None
  /\ plateCache srv !! "AB1" = Some entry.
Proof.
  cbv zeta. split; [reflexivity|]. split; [reflexivity|]. split; [reflexivity|].
  apply (checkPlate_error_caches_nothing
           {| requestBuckets := ∅;
              plateCache := setCachedResult ∅ "AB1" (PlainResult takenResult) 0 |}
           (requestFrom "198.51.100.4" "cd2") noon
           (Normal (JObj [("message", JStr "message.global")], 200)) "AB1"
           {| result := PlainResult takenResult; expiresAt := 300000 |}).
  - vm_compute. discriminate.
  - reflexivity.
Defined.

Lemma checkPlate_body_without_plate_witness :
  snd (checkPlate initialServer
         {| forwardedFor := None; ip := Some "198.51.100.4";
            body := (JStr "ab1" : JsVal Z) |}
         noon (Normal (JNull, 200)))
  = missingPlate.
Proof.
  apply (checkPlate_body_without_plate initialServer
           {| forwardedFor := None; ip := Some "198.51.100.4";
              body := (JStr "ab1" : JsVal Z) |}
           noon (Normal (JNull, 200))).
  - reflexivity.
  - reflexivity.
  - exact I.
Defined.

Lemma interleaved_cache_keys_witness :
  let srv : @Server Z :=
    fst (checkPlateEnd initialServer "AB1" (JObj [("available", JBool true)])
           200 1200) in
  interleaved srv
  /\ plateCache srv !! "AB1"
     = Some {| result := PlainResult availableResult; expiresAt := 301200 |}
  /\ 2 <= JsString.length "AB1" <= 7
  /\ JsString.all plateChar "AB1" = true.
Proof.
  cbv zeta.
  assert (Hrun : interleaved
            (fst (checkPlateEnd initialServer "AB1"
                    (JObj [("available", JBool true)] : JsVal Z) 200 1200))).
  { apply (interleaved_end initialServer (JStr "ab1") "AB1");
      [apply interleaved_initial | reflexivity]. }
  split; [exact Hrun|]. split; [reflexivity|].
  exact (interleaved_cache_keys _ Hrun "AB1"
           {| result := PlainResult availableResult; expiresAt := 301200 |}
           eq_refl).
Defined.

Lemma checkPlateEnd_unavailable_witness :
  let payload : JsVal Z := JObj [] in
  interpretDmvResponse payload 200 = Normal (PlainResult uninterpretedResult)
  /\ checkPlateEnd initialServer "AB1" payload 200 1200
     = (initialServer,
        Normal {| statusCode := 502;
                  sent := ErrorBody
                    (JStr "Could not interpret DMV response. Please try again.")
                    None |}).
Proof.
  cbv zeta. split; [reflexivity|].
  exact (checkPlateEnd_unavailable initialServer "AB1" (JObj [] : JsVal Z) 200
           1200 (PlainResult uninterpretedResult) eq_refl eq_refl).
Defined.

Lemma reachable_noUnavailableCached_witness :
  let srv : @Server Z :=
    fst (checkPlateEnd initialServer "AB1" (JObj [("available", JBool true)])
           200 1200) in
  reachable srv
  /\ plateCache srv !! "AB1"
     = Some {| result := PlainResult availableResult; expiresAt := 301200 |}
  /\ statusOf (PlainResult availableResult : @Returned Z) <> Some unavailable.
Proof.
  cbv zeta.
  assert (Hrun : reachable
            (fst (checkPlateEnd initialServer "AB1"
                    (JObj [("available", JBool true)] : JsVal Z) 200 1200))).
  { eapply reachable_step; [apply reachable_initial | apply step_end]. }
  split; [exact Hrun|]. split; [reflexivity|].
  exact (reachable_noUnavailableCached _ Hrun "AB1"
           {| result := PlainResult availableResult; expiresAt := 301200 |}
           eq_refl).
Defined.

Lemma checkPlate_200_not_unavailable_witness :
  let reply :=
    snd (checkPlate initialServer (requestFrom "198.51.100.4" "ab1") noon
           (Normal (JObj [("code", JStr "taken")], 200))) in
  statusCode reply = 200
  /\ exists spread cached,
       sent reply = ResultBody spread cached
       /\ statusOf spread <> Some unavailable.
Proof.
  cbv zeta. split; [reflexivity|].
  apply (checkPlate_200_not_unavailable initialServer
           (requestFrom "198.51.100.4" "ab1") noon
           (Normal (JObj [("code", JStr "taken")], 200))).
  - intros plate entry Hfound. simpl in Hfound.
    rewrite lookup_empty in Hfound. discriminate Hfound.
  - reflexivity.
Defined.

(** ** [getClientIp] *)

Lemma beforeComma_append (first rest : string) :
  JsString.all (fun c => negb (Ascii.eqb c ","%char)) first = true ->
  JsString.beforeComma (first +:+ "," +:+ rest) = first.
Proof.
  induction first as [|c first IH]; [reflexivity|].
  rewrite append_cons. simpl. intros Hall.
  apply andb_true_iff in Hall as [Hc Hall].
  apply negb_true_iff in Hc. rewrite Hc. f_equal. auto.
Qed.

Lemma length_append_comma (first rest : string) :
  0 < JsString.length (first +:+ "," +:+ rest).
Proof.
  unfold JsString.length. destruct first; [|rewrite append_cons]; simpl; lia.
Qed.

Section ClientIp.
Context {number : Type}.

(** The client is identified by the first entry of [x-forwarded-for] alone:
    when the header lists several addresses and the first is ASCII text, the
    identifier is the first one, trimmed, whatever the later entries and the
    address of the connection. *)
Theorem getClientIp_first_hop (first rest : string) (address : option string)
  (sentBody : JsVal number) :
  isAscii first = true ->
  JsString.all (fun c => negb (Ascii.eqb c ","%char)) first = true ->
  getClientIp {| forwardedFor := Some (first +:+ "," +:+ rest);
                 ip := address; body := sentBody |}
  = JsString.trim first.
Proof.
  intros _ Hfirst. unfold getClientIp. simpl.
  pose proof (length_append_comma first rest) as Hlen.
  replace (0 <? JsString.length (first +:+ "," +:+ rest)) with true by lia.
  now rewrite beforeComma_append.
Qed.

End ClientIp.

Lemma getClientIp_first_hop_witness :
  isAscii "203.0.113.7 " = true
  /\ getClientIp {| forwardedFor := Some ("203.0.113.7 " +:+ "," +:+ " 10.0.0.1, 10.0.0.2");
                 ip := Some "10.0.0.9"; body := (JNull : JsVal Z) |}
  = "203.0.113.7".
Proof.
  split; [reflexivity|].
  exact (getClientIp_first_hop (number := Z) "203.0.113.7 " " 10.0.0.1, 10.0.0.2"
           (Some "10.0.0.9") JNull eq_refl eq_refl).
Defined.

(** ** [buildPlateForm] *)

Lemma substring_step (s : string) :
  forall (i n : nat),
  String.substring i (S n) s = charOrEmpty s i +:+ String.substring (S i) n s.
Proof.
  induction s as [|c s IH]; intros i n.
  - destruct i; reflexivity.
  - destruct i as [|i]; [reflexivity|].
    change (String.substring (S i) (S n) (String c s))
      with (String.substring i (S n) s).
    rewrite IH. reflexivity.
Qed.

Lemma substring_empty (s : string) (i : nat) :
  String.substring i 0 s = EmptyString.
Proof.
  revert i. induction s as [|c s IH]; intros [|i]; try reflexivity.
  apply (IH i).
Qed.

Lemma charOrEmpty_seq (s : string) (n : nat) :
  forall i : nat,
  fold_right String.append EmptyString (List.map (charOrEmpty s) (seq i n))
  = String.substring i n s.
Proof.
  induction n as [|n IH]; intros i; simpl.
  - now rewrite substring_empty.
  - now rewrite IH, substring_step.
Qed.

Lemma substring_whole (s : string) :
  forall n : nat, (String.length s <= n)%nat -> String.substring 0 n s = s.
Proof.
  induction s as [|c s IH]; intros n Hn.
  - now destruct n.
  - destruct n as [|n]; simpl in Hn; [lia|].
    simpl. f_equal. apply IH. lia.
Qed.

Lemma append_empty_r (a : string) : a +:+ EmptyString = a.
Proof. induction a as [|c a IH]; [reflexivity|]. now rewrite append_cons, IH. Qed.

Lemma charOrEmpty_substring (s : string) (i : nat) :
  charOrEmpty s i = String.substring i 1 s.
Proof. now rewrite substring_step, substring_empty, append_empty_r. Qed.

(** The form has the same 25 field names whatever the plate, the last
    fourteen being [plateChar0] to [plateChar13]; the field [plateChar] of
    index [i] holds the character of the plate at index [i], or the empty
    string past the end of the plate; joined in order, the fourteen values
    spell the first fourteen characters of the plate, the whole plate when it
    has at most fourteen. *)
Theorem buildPlateForm_spells_plate (plate : string) :
  List.map fst (buildPlateForm plate)
  = [ "plateType"; "kidsPlate"; "plateNameLow"; "plateName"; "plateLength";
      "vetDecalCd"; "centeredPlateLength"; "platechecked"; "imageSelected";
      "vehicleType"; "vetDecalDesc";
      "plateChar0"; "plateChar1"; "plateChar2"; "plateChar3"; "plateChar4";
      "plateChar5"; "plateChar6"; "plateChar7"; "plateChar8"; "plateChar9";
      "plateChar10"; "plateChar11"; "plateChar12"; "plateChar13" ]
  /\ (forall i : nat, (i < 14)%nat ->
      buildPlateForm plate !! (11 + i)%nat
      = Some ("plateChar" +:+ pretty i, String.substring i 1 plate))
  /\ plateCharsOf (buildPlateForm plate) = String.substring 0 14 plate
  /\ ((String.length plate <= 14)%nat ->
      plateCharsOf (buildPlateForm plate) = plate).
Proof.
  assert (Hspell : plateCharsOf (buildPlateForm plate)
                   = String.substring 0 14 plate).
  { change (plateCharsOf (buildPlateForm plate))
      with (fold_right String.append EmptyString
              (List.map (charOrEmpty plate) (seq 0 14))).
    apply charOrEmpty_seq. }
  split; [reflexivity|]. split; [|split; [exact Hspell|]].
  - intros i Hi. rewrite <- charOrEmpty_substring.
    do 14 (destruct i as [|i]; [reflexivity|]). lia.
  - intros Hlen. rewrite Hspell. now apply substring_whole.
Qed.

Lemma buildPlateForm_spells_plate_witness :
  (2 < 14)%nat
  /\ buildPlateForm "AB1 CD/" !! 13%nat = Some ("plateChar2", "1")
  /\ (String.length "AB1 CD/" <= 14)%nat
  /\ plateCharsOf (buildPlateForm "AB1 CD/") = "AB1 CD/".
Proof.
  assert (Hi : (2 < 14)%nat) by lia.
  assert (Hlen : (String.length "AB1 CD/" <= 14)%nat) by (simpl; lia).
  split; [exact Hi|]. split.
  - exact (proj1 (proj2 (buildPlateForm_spells_plate "AB1 CD/")) 2%nat Hi).
  - split; [exact Hlen|].
    exact (proj2 (proj2 (proj2 (buildPlateForm_spells_plate "AB1 CD/"))) Hlen).
Defined.

(** ** [extractCookieHeader] *)

Lemma beforeSemicolon_append (pair attributes : string) :
  JsString.all (fun c => negb (Ascii.eqb c ";"%char)) pair = true ->
  beforeSemicolon (pair +:+ ";" +:+ attributes) = pair.
Proof.
  induction pair as [|c pair IH]; [reflexivity|].
  rewrite append_cons. simpl. intros Hall.
  apply andb_true_iff in Hall as [Hc Hall].
  apply negb_true_iff in Hc. rewrite Hc. f_equal. auto.
Qed.

Section Cookies.
Context {number : Type} `{JsNumber number}.

Lemma cookiePairs_strings (texts : list string) :
  cookiePairs (List.map (fun text => JStr text : JsVal number) texts)
  = Normal (List.map beforeSemicolon texts).
Proof.
  induction texts as [|text texts IH]; [reflexivity|].
  simpl. now rewrite IH.
Qed.

(** Of one [Set-Cookie] header, the name and value are kept and the
    attributes dropped: the cookie header is the text before the first
    semicolon. *)
Theorem extractCookieHeader_single (pair attributes : string) :
  JsString.all (fun c => negb (Ascii.eqb c ";"%char)) pair = true ->
  extractCookieHeader (JArr [JStr (pair +:+ ";" +:+ attributes)] : JsVal number)
  = Normal pair.
Proof.
  intros Hpair. unfold extractCookieHeader. cbn [cookiePairs ToString bind].
  rewrite (beforeSemicolon_append pair attributes Hpair).
  now destruct pair.
Qed.

(** On an array of strings, which is what [getSetCookie] returns,
    [extractCookieHeader] does not throw: it joins, with a semicolon and a
    space, the texts before the first semicolon of each header, in order,
    leaving out the empty ones; and it returns the empty string on anything
    that is not an array. *)
Theorem extractCookieHeader_strings (texts : list string) (other : JsVal number) :
  extractCookieHeader (JArr (List.map (fun text => JStr text : JsVal number) texts))
  = Normal (joinCookies
              (List.filter (fun pair => negb (JsString.isEmpty pair))
                 (List.map beforeSemicolon texts)))
  /\ (match other with JArr _ => False | _ => True end ->
      extractCookieHeader other = Normal EmptyString).
Proof.
  split.
  - unfold extractCookieHeader.
    pose proof (cookiePairs_strings texts) as Hpairs.
    destruct texts as [|text texts]; [reflexivity|].
    cbn [List.map] in *. now rewrite Hpairs.
  - destruct other; try reflexivity. contradiction.
Qed.

End Cookies.

Lemma extractCookieHeader_single_witness :
  extractCookieHeader
    (JArr [JStr ("JSESSIONID=0000abc" +:+ ";" +:+ " Path=/; HttpOnly")] : JsVal Z)
  = Normal "JSESSIONID=0000abc".
Proof.
  exact (extractCookieHeader_single (number := Z) "JSESSIONID=0000abc"
           " Path=/; HttpOnly" eq_refl).
Defined.

Lemma extractCookieHeader_strings_witness :
  extractCookieHeader
    (JArr (List.map (fun text => JStr text : JsVal Z)
             ["a=1; Path=/"; "; Secure"; "b=2"]))
  = Normal "a=1; b=2"
  /\ extractCookieHeader (JUndefined : JsVal Z) = Normal EmptyString.
Proof.
  split.
  - exact (proj1 (extractCookieHeader_strings (number := Z)
                    ["a=1; Path=/"; "; Secure"; "b=2"] JUndefined)).
  - exact (proj2 (extractCookieHeader_strings (number := Z) [] JUndefined) I).
Defined.

Lemma normalizePlate_succeeds_iff_witness :
  isAscii "  7xyz/ " = true
  /\ 2 <= JsString.length (JsString.trim "  7xyz/ ") <= 7
  /\ JsString.all plateCharAnyCase (JsString.trim "  7xyz/ ") = true
  /\ exists k, normalizePlate (JStr "  7xyz/ " : JsVal Z) = Normal k.
Proof.
  assert (Hlen : 2 <= JsString.length (JsString.trim "  7xyz/ ") <= 7).
  { vm_compute. split; discriminate. }
  split; [reflexivity|]. split; [exact Hlen|]. split; [reflexivity|].
  exact (proj2 (normalizePlate_succeeds_iff (number := Z) "  7xyz/ " eq_refl)
           (conj Hlen eq_refl)).
Defined.

Lemma cache_expiry_iff_witness :
  1000 + 300000 <= 1000 + 300000
  /\ snd (getCachedResult
            (setCachedResult (∅ : gmap string (@CacheEntry Z)) "AB1"
               (PlainResult takenResult) 1000)
            "AB1" (1000 + 300000))
     = Some (PlainResult takenResult).
Proof.
  assert (Hnow : 1000 + 300000 <= 1000 + 300000) by (vm_compute; discriminate).
  split; [exact Hnow|].
  exact (proj2 (cache_expiry_iff (∅ : gmap string (@CacheEntry Z)) "AB1"
                  (PlainResult takenResult) 1000 (1000 + 300000)) Hnow).
Defined.

Lemma normalizePlate_ignores_case_and_padding_witness :
  isAscii " Ab1 " = true
  /\ normalizePlate (JStr (JsString.toLowerCase " Ab1 ") : JsVal Z)
     = normalizePlate (JStr " Ab1 " : JsVal Z).
Proof.
  split; [reflexivity|].
  exact (proj2 (proj2 (normalizePlate_ignores_case_and_padding (number := Z)
                         " Ab1 " eq_refl))).
Defined.

Lemma interpret_text_ignores_case_witness :
  isAscii "Already in use" = true
  /\ interpretDmvResponse (JStr (JsString.toUpperCase "Already in use") : JsVal Z) 200
     = interpretDmvResponse (JStr "Already in use" : JsVal Z) 200.
Proof.
  split; [reflexivity|].
  exact (interpret_text_ignores_case (number := Z) "Already in use" 200 eq_refl).
Defined.

Lemma checkPlate_counts_every_request_witness :
  asciiHeader (requestFrom "198.51.100.4" "ab!") = true
  /\ requestBuckets
       (fst (checkPlate initialServer (requestFrom "198.51.100.4" "ab!") noon
               (Normal (JNull, 200))))
     = fst (isRateLimited (requestBuckets (@initialServer Z))
              (getClientIp (requestFrom "198.51.100.4" "ab!")) (tRate noon)).
Proof.
  split; [reflexivity|].
  exact (checkPlate_counts_every_request initialServer
           (requestFrom "198.51.100.4" "ab!") noon (Normal (JNull, 200)) eq_refl).
Defined.
